(** * rehex profiling counters: src/profile.cpp

    A shallow embedding of the sliding-window profiling collector of
    src/profile.cpp (ProfilingCollector, ProfilingCollector::Stats and the
    process-wide list of collectors), and the properties stated about it.

    Machine integers are integers of [Z] with the wrap-around of their
    width written out.  The header profile.hpp is not part of the sources:
    the constants NUM_SLOTS and SLOT_DURATION_MS and the width of the
    sample counter are parameters of the development. *)

From Stdlib Require Import ZArith Lia Bool String.
From stdpp Require Import base list gmap.

Local Open Scope Z_scope.

(** ** Machine integers *)

(** uint64_t arithmetic wraps modulo 2^64. *)
Definition u64 (x : Z) : Z := x mod 2 ^ 64.

Definition is_u64 (x : Z) : Prop := 0 <= x < 2 ^ 64.

(** An unsigned integer of [bits] bits wraps modulo 2^bits. *)
Definition wrap (bits x : Z) : Z := x mod 2 ^ bits.

(** ** Outcome of running a piece of the program *)

Inductive fault : Type :=
| AssertFailed      (* assert() failed in a build without NDEBUG *)
| OutOfBounds       (* access outside the slots array *)
| Diverged          (* a loop ran past the fuel it was given *)
| NullDeref         (* use of the collectors list while the pointer is NULL *)
| InvalidIterator.  (* std::list::erase through an iterator of no node *)

Inductive result (A : Type) : Type :=
| Ok (a : A)
| Fault (f : fault).

Arguments Ok {A} a.
Arguments Fault {A} f.

Definition bind {A B : Type} (r : result A) (k : A -> result B) : result B :=
  match r with
  | Ok a => k a
  | Fault f => Fault f
  end.

Notation "x <- r ;; k" := (bind r (fun x => k))
  (at level 100, r at next level, right associativity).

(** ** ProfilingCollector::Stats *)

Module Stats.

(** The struct is declared in profile.hpp.  The three times are uint64_t,
    the type that record_time receives and get_avg_time returns; the sample
    counter is an unsigned integer whose width, SAMPLES_BITS, is a
    parameter. *)
Record t : Type := mk {
  min_time : Z;     (* uint64_t *)
  max_time : Z;     (* uint64_t *)
  total_time : Z;   (* uint64_t *)
  num_samples : Z   (* unsigned, SAMPLES_BITS wide *)
}.

(** Stats::Stats() *)
Definition new : t := mk 0 0 0 0.

(** Stats::reset() *)
Definition reset (s : t) : t := mk 0 0 0 0.

(** Stats::get_avg_time(): the division of C++ truncates. *)
Definition get_avg_time (s : t) : Z :=
  if 0 <? num_samples s then total_time s ÷ num_samples s else 0.

Section Width.

Variable SAMPLES_BITS : Z.

(** Stats::record_time(duration) *)
Definition record_time (duration : Z) (s : t) : t :=
  let s1 :=
    if num_samples s =? 0 then
      mk duration duration duration (num_samples s)
    else
      let mn := if duration <? min_time s then duration else min_time s in
      let mx := if max_time s <? duration then duration else max_time s in
      mk mn mx (u64 (total_time s + duration)) (num_samples s) in
  mk (min_time s1) (max_time s1) (total_time s1)
     (wrap SAMPLES_BITS (num_samples s1 + 1)).

(** Stats::operator+=(rhs), returning the updated left operand. *)
Definition add (lhs rhs : t) : t :=
  if 0 <? num_samples rhs then
    let mn :=
      if (num_samples lhs =? 0) || (min_time rhs <? min_time lhs)
      then min_time rhs else min_time lhs in
    let mx :=
      if (num_samples lhs =? 0) || (max_time lhs <? max_time rhs)
      then max_time rhs else max_time lhs in
    mk mn mx (u64 (total_time lhs + total_time rhs))
       (wrap SAMPLES_BITS (num_samples lhs + num_samples rhs))
  else lhs.

(** The values a Stats object can hold: every field within its type. *)
Definition in_range (s : t) : Prop :=
  is_u64 (min_time s) /\ is_u64 (max_time s) /\ is_u64 (total_time s) /\
  0 <= num_samples s < 2 ^ SAMPLES_BITS.

(** What the constructor and reset() establish for an empty object. *)
Definition canonical (s : t) : Prop :=
  num_samples s = 0 -> s = new.

(** The values built from an empty object by record_time and operator+=. *)
Inductive reachable : t -> Prop :=
| reach_new : reachable new
| reach_record d s : is_u64 d -> reachable s -> reachable (record_time d s)
| reach_add a b : reachable a -> reachable b -> reachable (add a b).

(** The same, where no addition of total_time or num_samples wraps. *)
Inductive reachable_exact : t -> Prop :=
| exact_new : reachable_exact new
| exact_record d s :
    is_u64 d -> reachable_exact s ->
    total_time s + d < 2 ^ 64 ->
    num_samples s + 1 < 2 ^ SAMPLES_BITS ->
    reachable_exact (record_time d s)
| exact_add a b :
    reachable_exact a -> reachable_exact b ->
    total_time a + total_time b < 2 ^ 64 ->
    num_samples a + num_samples b < 2 ^ SAMPLES_BITS ->
    reachable_exact (add a b).

(** What holds of every Stats value built without overflow: an empty one
    is all zero, and otherwise total_time lies between num_samples times
    min_time and num_samples times max_time. *)
Definition exact_inv (s : t) : Prop :=
  in_range s /\ canonical s /\
  (0 < num_samples s ->
   min_time s * num_samples s <= total_time s
   /\ total_time s <= max_time s * num_samples s).

End Width.

(** Two samples of the longest duration a uint64_t holds, recorded into an
    empty Stats with a 32-bit counter. *)
Definition two_longest_samples : t :=
  record_time 32 (2 ^ 64 - 1) (record_time 32 (2 ^ 64 - 1) new).

End Stats.

(** ** ProfilingCollector *)

Module ProfilingCollector.

(** Address of a ProfilingCollector object. *)
Definition ptr : Type := nat.

(** A std::list iterator designates one node of the list and stays valid
    until that node is erased: a node is known by an identity that no
    other node ever receives. *)
Definition iterator : Type := nat.

(** The members are declared in profile.hpp; head_time_bucket is compared
    with and subtracted from uint64_t values in record_time. *)
Record t : Type := mk {
  key : string;
  head_time_bucket : Z;      (* uint64_t *)
  slots : list Stats.t;      (* Stats slots[NUM_SLOTS] *)
  this_iter : iterator
}.

(** The static member [collectors]: NULL, or a list of nodes.  [next_node]
    is the identity the next allocated node receives. *)
Record registry : Type := mkRegistry {
  collectors : option (list (iterator * ptr));
  next_node : iterator
}.

(** The state of the static member when the program starts. *)
Definition no_collectors : registry := mkRegistry None 0%nat.

(** get_collectors(): a copy of the list, or an empty list. *)
Definition get_collectors (r : registry) : list ptr :=
  match collectors r with
  | Some l => l.*2
  | None => []
  end.

(** slots[i], read and written in place. *)
Definition slot_read (i : Z) (sl : list Stats.t) : result Stats.t :=
  if 0 <=? i then
    match sl !! Z.to_nat i with
    | Some s => Ok s
    | None => Fault OutOfBounds
    end
  else Fault OutOfBounds.

Definition slot_update (i : Z) (f : Stats.t -> Stats.t) (sl : list Stats.t)
  : result (list Stats.t) :=
  s <- slot_read i sl ;; Ok (<[Z.to_nat i := f s]> sl).

(** memmove(slots + dst, slots + src, n elements): the n source elements
    are read before any is written. *)
Definition memmove (dst src n : Z) (sl : list Stats.t) : result (list Stats.t) :=
  if (0 <=? dst) && (0 <=? src) && (0 <=? n)
     && (dst + n <=? Z.of_nat (length sl)) && (src + n <=? Z.of_nat (length sl))
  then Ok (take (Z.to_nat dst) sl
           ++ take (Z.to_nat n) (drop (Z.to_nat src) sl)
           ++ drop (Z.to_nat (dst + n)) sl)
  else Fault OutOfBounds.

(** The loop of reset(begin_idx, end_idx): [n] iterations from index [i]. *)
Fixpoint reset_loop (n : nat) (i : Z) (sl : list Stats.t) : result (list Stats.t) :=
  match n with
  | O => Ok sl
  | S n' => sl' <- slot_update i Stats.reset sl ;; reset_loop n' (i + 1) sl'
  end.

Definition reset_slots (begin_idx end_idx : Z) (sl : list Stats.t)
  : result (list Stats.t) :=
  reset_loop (Z.to_nat (end_idx - begin_idx)) begin_idx sl.

(** ProfilingCollector::reset(begin_idx, end_idx) *)
Definition reset (begin_idx end_idx : Z) (c : t) : result t :=
  sl <- reset_slots begin_idx end_idx (slots c) ;;
  Ok (mk (key c) (head_time_bucket c) sl (this_iter c)).

(** get_key() *)
Definition get_key (c : t) : string := key c.

(** std::list::erase(it) *)
Definition erase (it : iterator) (l : list (iterator * ptr))
  : result (list (iterator * ptr)) :=
  if decide (it ∈ l.*1) then Ok (filter (λ n, n.1 ≠ it) l)
  else Fault InvalidIterator.

(** ~ProfilingCollector() *)
Definition destroy (c : t) (r : registry) : result registry :=
  match collectors r with
  | None => Fault NullDeref
  | Some l =>
      l' <- erase (this_iter c) l ;;
      match l' with
      | [] => Ok (mkRegistry None (next_node r))
      | _ :: _ => Ok (mkRegistry (Some l') (next_node r))
      end
  end.

Section Build.

Variables NUM_SLOTS SLOT_DURATION_MS SAMPLES_BITS : Z.

(** Whether assert() is compiled out. *)
Variable NDEBUG : bool.

Definition assert (b : bool) : result unit :=
  if NDEBUG || b then Ok tt else Fault AssertFailed.

(** The time bucket of an instant in microseconds:
    t / (SLOT_DURATION_MS * 1000).  The operands are unsigned: on integers
    that are not negative the division of [Z] is that of C++. *)
Definition time_bucket (t : Z) : Z := t / (SLOT_DURATION_MS * 1000).

(** Modelled from the spec: the default arguments of
    reset(begin_idx, end_idx) are given in profile.hpp, which is not among
    the sources; by the spec reset() zeroes every bucket, that is
    reset(0, NUM_SLOTS). *)
Definition reset_all (sl : list Stats.t) : result (list Stats.t) :=
  reset_slots 0 NUM_SLOTS sl.

(** ProfilingCollector(key), for the object at address [this]: the slots
    are default-constructed, then reset() runs, then the object is
    appended to the list, which is allocated if the pointer is NULL. *)
Definition create (this : ptr) (k : string) (r : registry) : result (t * registry) :=
  sl <- reset_all (replicate (Z.to_nat NUM_SLOTS) Stats.new) ;;
  let l := match collectors r with
           | Some l => l
           | None => []
           end in
  let it := next_node r in
  Ok (mk k 0 sl it, mkRegistry (Some (l ++ [(it, this)])) (S it)).

(** The loop of accumulate_stats: [s] and [stats_end] are the positions of
    the two pointers in the slots array. *)
Fixpoint accumulate_loop (fuel : nat) (s stats_end : Z) (sl : list Stats.t)
    (acc : Stats.t) : result Stats.t :=
  if s =? stats_end then Ok acc
  else
    match fuel with
    | O => Fault Diverged
    | S fuel' =>
        x <- slot_read s sl ;;
        accumulate_loop fuel' (s + 1) stats_end sl (Stats.add SAMPLES_BITS acc x)
    end.

(** accumulate_stats(window_duration_ms) *)
Definition accumulate_stats (window_duration_ms : Z) (c : t) : result Stats.t :=
  let stats_begin := 1 in
  let stats_end :=
    Z.min (stats_begin + window_duration_ms / SLOT_DURATION_MS) NUM_SLOTS in
  accumulate_loop (Z.to_nat NUM_SLOTS) stats_begin stats_end (slots c) Stats.new.

(** What record_time does to the slots when the clock has moved on by
    [shift_by] buckets: the memmove under [if(shift_by < NUM_SLOTS)] and
    the call reset(0, NUM_SLOTS - slots_to_keep). *)
Definition shift_slots (shift_by : Z) (sl : list Stats.t) : result (list Stats.t) :=
  kept <-
    (if shift_by <? NUM_SLOTS then
       let slots_to_keep := NUM_SLOTS - shift_by in
       sl' <- memmove shift_by 0 slots_to_keep sl ;;
       Ok (slots_to_keep, sl')
     else Ok (0, sl)) ;;
  reset_slots 0 (NUM_SLOTS - fst kept) (snd kept).

(** The first half of record_time (the block under
    [if(now_time_bucket != head_time_bucket)]): the ring moves on to the
    time bucket of the clock. *)
Definition advance_to (now_time_bucket : Z) (c : t) : result t :=
  if now_time_bucket =? head_time_bucket c then Ok c
  else
    _ <- assert (head_time_bucket c <? now_time_bucket) ;;
    let shift_by := u64 (now_time_bucket - head_time_bucket c) in
    sl <- shift_slots shift_by (slots c) ;;
    Ok (mk (key c) now_time_bucket sl (this_iter c)).

(** The test that guards the write of record_time:
    begin_time_bucket <= head_time_bucket
    && (begin_time_bucket + NUM_SLOTS) > head_time_bucket. *)
Definition retained (head begin_time_bucket : Z) : bool :=
  (begin_time_bucket <=? head) && (head <? u64 (begin_time_bucket + NUM_SLOTS)).

(** record_time(begin_time, duration), where [now_us] is what
    get_monotonic_us() returns during the call. *)
Definition record_time (now_us begin_time duration : Z) (c : t) : result t :=
  let now_time_bucket := time_bucket now_us in
  c1 <- advance_to now_time_bucket c ;;
  let begin_time_bucket := time_bucket begin_time in
  if retained (head_time_bucket c1) begin_time_bucket then
    let slot_idx := u64 (head_time_bucket c1 - begin_time_bucket) in
    sl <- slot_update slot_idx (Stats.record_time SAMPLES_BITS duration) (slots c1) ;;
    Ok (mk (key c1) (head_time_bucket c1) sl (this_iter c1))
  else Ok c1.

(** The constants the header gives: a positive number of slots that a
    size_t of 32 bits can index, and a positive slot duration whose product
    by 1000 overflows neither int nor unsigned int. *)
Definition build_ok : Prop :=
  0 < NUM_SLOTS <= 2 ^ 32
  /\ 0 < SLOT_DURATION_MS /\ SLOT_DURATION_MS * 1000 < 2 ^ 31.

(** The slots array has NUM_SLOTS elements and the head is a uint64_t. *)
Definition wf (c : t) : Prop :=
  Z.of_nat (length (slots c)) = NUM_SLOTS /\ is_u64 (head_time_bucket c).

(** What the reporting table shows of a Stats value. *)
Definition report (s : Stats.t) : Z * Z * Z * Z :=
  (Stats.min_time s, Stats.max_time s, Stats.get_avg_time s, Stats.num_samples s).

(** *** Programs that create and destroy collectors *)

Inductive op : Type :=
| New (this : ptr) (k : string)
| Delete (this : ptr).

(** The collector objects alive, by address, and the static member. *)
Record world : Type := mkWorld {
  heap : gmap ptr t;
  reg : registry
}.

Definition boot : world := mkWorld ∅ no_collectors.

Definition step (o : op) (w : world) : result world :=
  match o with
  | New this k =>
      cr <- create this k (reg w) ;;
      Ok (mkWorld (<[this := fst cr]> (heap w)) (snd cr))
  | Delete this =>
      match heap w !! this with
      | None => Fault InvalidIterator
      | Some c =>
          r <- destroy c (reg w) ;;
          Ok (mkWorld (delete this (heap w)) r)
      end
  end.

Fixpoint run (ops : list op) (w : world) : result world :=
  match ops with
  | [] => Ok w
  | o :: ops' => w' <- step o w ;; run ops' w'
  end.

End Build.

(** *** What holds of the list of collectors *)

(** The nodes of the list, none when the pointer is NULL. *)
Definition nodes (r : registry) : list (iterator * ptr) :=
  default [] (collectors r).

(** The list is freed as soon as it is empty, no two nodes have the same
    identity, and the identities in use are older than the next one. *)
Definition registry_ok (r : registry) : Prop :=
  collectors r ≠ Some []
  /\ NoDup (nodes r).*1
  /\ forall it, it ∈ (nodes r).*1 -> (it < next_node r)%nat.

(** The list holds the collectors alive, [live], in order, and each of them
    keeps the iterator of its own node. *)
Definition world_ok (w : world) (live : list ptr) : Prop :=
  registry_ok (reg w)
  /\ get_collectors (reg w) = live
  /\ NoDup live
  /\ (forall p, p ∈ live <-> is_Some (heap w !! p))
  /\ (forall p c, heap w !! p = Some c -> (this_iter c, p) ∈ nodes (reg w)).

(** *** What the operations are said to compute *)

(** The merge of the buckets with indices in [[lo, hi)], from an empty
    Stats. *)
Definition merge_range (bits : Z) (lo hi : Z) (sl : list Stats.t) : Stats.t :=
  foldl (Stats.add bits) Stats.new
        (take (Z.to_nat (hi - lo)) (drop (Z.to_nat lo) sl)).

(** The collectors alive after a program, in the order they were created,
    starting from those of [acc]. *)
Fixpoint live_after (ops : list op) (acc : list ptr) : list ptr :=
  match ops with
  | [] => acc
  | New this _ :: ops' => live_after ops' (acc ++ [this])
  | Delete this :: ops' => live_after ops' (filter (λ p, p ≠ this) acc)
  end.

(** A program creates a collector only at an address that holds none, and
    destroys only a collector that is alive. *)
Fixpoint well_formed (ops : list op) (acc : list ptr) : bool :=
  match ops with
  | [] => true
  | New this _ :: ops' =>
      bool_decide (this ∉ acc) && well_formed ops' (acc ++ [this])
  | Delete this :: ops' =>
      bool_decide (this ∈ acc) && well_formed ops' (filter (λ p, p ≠ this) acc)
  end.

(** *** Collectors and runs to evaluate *)

(** A collector of five slots whose head is bucket 7. *)
Definition example_collector : t :=
  mk "draw" 7
     [Stats.mk 4 4 4 1; Stats.mk 2 6 8 2; Stats.new; Stats.mk 9 9 9 1; Stats.new]
     0%nat.

(** The scenario with NUM_SLOTS = 5 and SLOT_DURATION_MS = 1000: a new
    collector, record_time(0, 10) with the clock at 0 ms,
    record_time(begin_time, 20) with the clock at 1000 ms, and the report of
    accumulate_stats(5000).  accumulate_stats does not read the clock. *)
Definition scenario (bits : Z) (ndebug : bool) (begin_time : Z)
  : result (Z * Z * Z * Z) :=
  cr <- create 5 0%nat "probe" no_collectors ;;
  c1 <- record_time 5 1000 bits ndebug 0 0 10 (fst cr) ;;
  c2 <- record_time 5 1000 bits ndebug 1000000 begin_time 20 c1 ;;
  s <- accumulate_stats 5 1000 bits 5000 c2 ;;
  Ok (report s).

(** Two recordings ten seconds apart with NUM_SLOTS = 5 and
    SLOT_DURATION_MS = 1000, the second for a block that began at 9 s and
    took one second, and accumulate_stats(5000) right after. *)
Definition long_block_after_gap : result Stats.t :=
  cr <- create 5 0%nat "probe" no_collectors ;;
  c1 <- record_time 5 1000 32 false 0 0 10 (fst cr) ;;
  c2 <- record_time 5 1000 32 false 10000000 9000000 1000000 c1 ;;
  accumulate_stats 5 1000 32 5000 c2.

(** The only collector is destroyed, and its destructor runs again. *)
Definition destroy_only_collector_twice : result registry :=
  cr <- create 5 0%nat "probe" no_collectors ;;
  r1 <- destroy (fst cr) (snd cr) ;;
  destroy (fst cr) r1.

(** The first of two collectors is destroyed, and its destructor runs
    again. *)
Definition destroy_first_collector_twice : result registry :=
  cr1 <- create 5 0%nat "first" no_collectors ;;
  cr2 <- create 5 1%nat "second" (snd cr1) ;;
  r1 <- destroy (fst cr1) (snd cr2) ;;
  destroy (fst cr1) r1.

End ProfilingCollector.

(** ** The rest of profile.cpp: reset_collectors, AutoBlockProfiler and the
    table of the profiling window *)

(** Outcome of the code that reaches collectors through pointers. *)
Inductive outcome (A : Type) : Type :=
| Done (a : A)
| Crash (f : fault)   (* a fault inside a collector *)
| Dangling            (* use of a collector or of a table row that does not exist *)
| Aborted.            (* abort() *)

Arguments Done {A} a.
Arguments Crash {A} f.
Arguments Dangling {A}.
Arguments Aborted {A}.

Definition bind_outcome {A B : Type} (r : outcome A) (k : A -> outcome B)
  : outcome B :=
  match r with
  | Done a => k a
  | Crash f => Crash f
  | Dangling => Dangling
  | Aborted => Aborted
  end.

Notation "x <~ r ;; k" := (bind_outcome r (fun x => k))
  (at level 100, r at next level, right associativity).

Definition lift {A : Type} (r : result A) : outcome A :=
  match r with
  | Ok a => Done a
  | Fault f => Crash f
  end.

(** The object a pointer to a collector designates. *)
Definition deref (h : gmap ProfilingCollector.ptr ProfilingCollector.t)
    (p : ProfilingCollector.ptr) : outcome ProfilingCollector.t :=
  match h !! p with
  | Some c => Done c
  | None => Dangling
  end.

Module Collectors.

Import ProfilingCollector.

Section Build.

Variable NUM_SLOTS : Z.

(** The loop of reset_collectors over the nodes of the list; reset() is
    reset(0, NUM_SLOTS), see [reset_all]. *)
Fixpoint reset_each (l : list (iterator * ptr)) (h : gmap ptr t)
  : outcome (gmap ptr t) :=
  match l with
  | [] => Done h
  | n :: l' =>
      c <~ deref h n.2 ;;
      c' <~ lift (reset 0 NUM_SLOTS c) ;;
      reset_each l' (<[n.2 := c']> h)
  end.

(** ProfilingCollector::reset_collectors() *)
Definition reset_collectors (w : world) : outcome world :=
  match collectors (reg w) with
  | Some l => h <~ reset_each l (heap w) ;; Done (mkWorld h (reg w))
  | None => Done w
  end.

(** Every collector alive has its NUM_SLOTS slots. *)
Definition heap_wf (w : world) : Prop :=
  forall p c, heap w !! p = Some c -> wf NUM_SLOTS c.

(** A collector with every slot empty, and the rest as it was. *)
Definition cleared (c : t) : t :=
  mk (key c) (head_time_bucket c)
     (replicate (Z.to_nat NUM_SLOTS) Stats.new) (this_iter c).

End Build.

End Collectors.

Module AutoBlockProfiler.

Record t : Type := mk {
  collector : ProfilingCollector.ptr;
  start_time : Z     (* uint64_t *)
}.

(** AutoBlockProfiler(collector), where [clock] is what get_monotonic_us()
    returns. *)
Definition create (collector : ProfilingCollector.ptr) (clock : Z) : t :=
  mk collector clock.

Section Build.

Variables NUM_SLOTS SLOT_DURATION_MS SAMPLES_BITS : Z.
Variable NDEBUG : bool.

(** ~AutoBlockProfiler(): [end_time] is what get_monotonic_us() returns in
    the destructor, [now_us] what it returns next, inside record_time, and
    [c] the collector the member points to. *)
Definition destroy (end_time now_us : Z) (p : t) (c : ProfilingCollector.t)
  : result ProfilingCollector.t :=
  let duration := u64 (end_time - start_time p) in
  ProfilingCollector.record_time NUM_SLOTS SLOT_DURATION_MS SAMPLES_BITS NDEBUG
    now_us (start_time p) duration c.

End Build.

End AutoBlockProfiler.

Module ProfilingDataViewModel.

Import ProfilingCollector.

Definition COLLECTOR_MODEL_COLUMN_NAME : Z := 0.
Definition COLLECTOR_MODEL_COLUMN_SAMPLES : Z := 1.
Definition COLLECTOR_MODEL_COLUMN_MIN : Z := 2.
Definition COLLECTOR_MODEL_COLUMN_MAX : Z := 3.
Definition COLLECTOR_MODEL_COLUMN_AVG : Z := 4.
Definition COLLECTOR_MODEL_COLUMN_COUNT : Z := 5.

(** The members are declared in profile.hpp: [stats] is used through find
    and through emplace, which says whether it inserted, so it is a map with
    one element for each pointer to a collector, holding the Stats shown
    for it.  A row of the table (a wxDataViewItem) is the address of an
    element of the map, known here by the key of the element. *)
Record t : Type := mk {
  duration_ms : Z;             (* unsigned int *)
  stats : gmap ptr Stats.t
}.

(** ProfilingDataViewModel() *)
Definition new : t := mk 5000 ∅.

(** What update() tells the view. *)
Inductive event : Type :=
| ItemChanged (row : ptr)
| ItemAdded (row : ptr).

(** What update() tells the view of a collector, given the table before. *)
Definition notice (m : t) (p : ptr) : event :=
  match stats m !! p with
  | Some _ => ItemChanged p
  | None => ItemAdded p
  end.

(** cmp_value(a, b), for a type compared by [lt]. *)
Definition cmp_value {T : Type} (lt : T -> T -> bool) (a b : T) : Z :=
  if lt a b then -1
  else if lt b a then 1
  else 0.

(** dv_item_to_stats_elem(item), and the read of the element. *)
Definition row (m : t) (item : ptr) : outcome (ptr * Stats.t) :=
  match stats m !! item with
  | Some s => Done (item, s)
  | None => Dangling
  end.

(** Compare(item1, item2, column, ascending); [h] holds the collectors
    alive.  std::string is ordered like [String.ltb], byte by byte. *)
Definition Compare (h : gmap ptr ProfilingCollector.t) (m : t)
    (item1 item2 : ptr) (column : Z) (ascending : bool) : outcome Z :=
  if column =? COLLECTOR_MODEL_COLUMN_NAME then
    e1 <~ row m item1 ;;
    e2 <~ row m item2 ;;
    c1 <~ deref h e1.1 ;;
    c2 <~ deref h e2.1 ;;
    Done (cmp_value String.ltb (get_key c1) (get_key c2))
  else if column =? COLLECTOR_MODEL_COLUMN_SAMPLES then
    e1 <~ row m item1 ;;
    e2 <~ row m item2 ;;
    Done (cmp_value Z.ltb (Stats.num_samples e1.2) (Stats.num_samples e2.2))
  else if column =? COLLECTOR_MODEL_COLUMN_MIN then
    e1 <~ row m item1 ;;
    e2 <~ row m item2 ;;
    Done (cmp_value Z.ltb (Stats.min_time e1.2) (Stats.min_time e2.2))
  else if column =? COLLECTOR_MODEL_COLUMN_MAX then
    e1 <~ row m item1 ;;
    e2 <~ row m item2 ;;
    Done (cmp_value Z.ltb (Stats.max_time e1.2) (Stats.max_time e2.2))
  else if column =? COLLECTOR_MODEL_COLUMN_AVG then
    e1 <~ row m item1 ;;
    e2 <~ row m item2 ;;
    Done (cmp_value Z.ltb (Stats.get_avg_time e1.2) (Stats.get_avg_time e2.2))
  else Aborted.

(** GetColumnCount() *)
Definition GetColumnCount : Z := COLLECTOR_MODEL_COLUMN_COUNT.

Section Build.

Variables NUM_SLOTS SLOT_DURATION_MS SAMPLES_BITS : Z.

(** The loop of update() over the copy of the list of collectors: an
    element found is assigned the new Stats, an element missing is
    emplaced, and the view is told which. *)
Fixpoint update_loop (cs : list ptr) (h : gmap ptr ProfilingCollector.t)
    (m : t) (log : list event) : outcome (t * list event) :=
  match cs with
  | [] => Done (m, log)
  | p :: cs' =>
      c <~ deref h p ;;
      s <~ lift (accumulate_stats NUM_SLOTS SLOT_DURATION_MS SAMPLES_BITS
                   (duration_ms m) c) ;;
      match stats m !! p with
      | Some _ =>
          update_loop cs' h (mk (duration_ms m) (<[p := s]> (stats m)))
            (log ++ [ItemChanged p])
      | None =>
          update_loop cs' h (mk (duration_ms m) (<[p := s]> (stats m)))
            (log ++ [ItemAdded p])
      end
  end.

(** update() *)
Definition update (w : world) (m : t) : outcome (t * list event) :=
  update_loop (get_collectors (reg w)) (heap w) m [].

(** update(duration_ms) *)
Definition update_duration (d : Z) (w : world) (m : t)
  : outcome (t * list event) :=
  update w (mk d (stats m)).

End Build.

End ProfilingDataViewModel.

(** ** Quantities to state properties with *)

(** The slots that accumulate_stats(window_duration_ms) reads. *)
Definition window_slots (NUM_SLOTS SLOT_DURATION_MS window_duration_ms : Z)
    (sl : list Stats.t) : list Stats.t :=
  take (Z.to_nat (Z.min (1 + window_duration_ms / SLOT_DURATION_MS) NUM_SLOTS - 1))
       (drop 1 sl).

(** The number of samples a list of Stats stands for. *)
Definition sum_samples (l : list Stats.t) : Z :=
  foldr (λ s n, Stats.num_samples s + n) 0 l.

(** [n] calls of Stats::record_time(d). *)
Definition record_many (bits : Z) (n : nat) (d : Z) (s : Stats.t) : Stats.t :=
  Nat.iter n (Stats.record_time bits d) s.

(** The Stats of the samples of durations [ds], recorded in that order
    into an empty Stats. *)
Definition stats_of (bits : Z) (ds : list Z) : Stats.t :=
  foldl (λ s d, Stats.record_time bits d s) Stats.new ds.

(** Calls of record_time, one after the other: each sample is the clock
    during the call, the time the sample began, and its duration. *)
Fixpoint record_samples (NUM_SLOTS SLOT_DURATION_MS bits : Z) (ndebug : bool)
    (samples : list (Z * Z * Z)) (c : ProfilingCollector.t)
  : result ProfilingCollector.t :=
  match samples with
  | [] => Ok c
  | s :: samples' =>
      c' <- ProfilingCollector.record_time NUM_SLOTS SLOT_DURATION_MS bits ndebug
              s.1.1 s.1.2 s.2 c ;;
      record_samples NUM_SLOTS SLOT_DURATION_MS bits ndebug samples' c'
  end.

(** * Properties *)

(** ** Machine integers *)

Lemma u64_small x : is_u64 x -> u64 x = x.
Proof. intros H. unfold u64. apply Z.mod_small. exact H. Qed.

Lemma wrap_small bits x : 0 <= x < 2 ^ bits -> wrap bits x = x.
Proof. intros H. unfold wrap. apply Z.mod_small. exact H. Qed.

Lemma u64_range x : is_u64 (u64 x).
Proof. unfold is_u64, u64. apply Z.mod_pos_bound. lia. Qed.

Lemma u64_add_l x y : u64 (u64 x + y) = u64 (x + y).
Proof. unfold u64. apply Zplus_mod_idemp_l. Qed.

Lemma u64_add_r x y : u64 (x + u64 y) = u64 (x + y).
Proof. unfold u64. apply Zplus_mod_idemp_r. Qed.

(** ** Stats *)

Section StatsFacts.

Variable bits : Z.

Local Abbreviation add := (Stats.add bits).
Local Abbreviation record_time := (Stats.record_time bits).
Local Abbreviation in_range := (Stats.in_range bits).

Lemma canonical_fields mn mx tot :
  Stats.canonical (Stats.mk mn mx tot 0) -> mn = 0 /\ mx = 0 /\ tot = 0.
Proof.
  intros H. specialize (H eq_refl). unfold Stats.new in H.
  injection H as -> -> ->. auto.
Qed.

Lemma add_new_r a : add a Stats.new = a.
Proof. reflexivity. Qed.

Lemma add_new_l a : in_range a -> 0 < Stats.num_samples a -> add Stats.new a = a.
Proof.
  destruct a as [mn mx tot n]. unfold Stats.in_range, is_u64. simpl.
  intros (_ & _ & Ht & Hn) Hpos. unfold Stats.add. simpl.
  destruct (Z.ltb_spec 0 n); [|lia].
  rewrite u64_small, wrap_small by (unfold is_u64; lia). reflexivity.
Qed.

Ltac no_test x :=
  lazymatch x with
  | context [if _ then _ else _] => fail
  | _ => idtac
  end.

Ltac split_tests :=
  repeat match goal with
  | |- context [Z.ltb ?x ?y] => no_test x; no_test y; destruct (Z.ltb_spec x y)
  | |- context [Z.eqb ?x ?y] => no_test x; no_test y; destruct (Z.eqb_spec x y)
  end; simpl.

Lemma add_comm a b :
  in_range a -> in_range b -> Stats.canonical a -> Stats.canonical b ->
  add a b = add b a.
Proof.
  destruct a as [amn amx at_ an], b as [bmn bmx bt bn].
  unfold Stats.in_range, is_u64. simpl.
  intros (? & ? & ? & ?) (? & ? & ? & ?) Ca Cb.
  destruct (Z.eq_dec an 0) as [->|Ha]; [apply canonical_fields in Ca as (-> & -> & ->)|];
  (destruct (Z.eq_dec bn 0) as [->|Hb]; [apply canonical_fields in Cb as (-> & -> & ->)|]).
  - reflexivity.
  - rewrite add_new_r. apply add_new_l; unfold Stats.in_range, is_u64; simpl; lia.
  - rewrite add_new_r. symmetry.
    apply add_new_l; unfold Stats.in_range, is_u64; simpl; lia.
  - unfold Stats.add. simpl.
    rewrite (Z.add_comm bt at_), (Z.add_comm bn an).
    split_tests; try lia; f_equal; lia.
Qed.

Lemma add_assoc a b c :
  in_range a -> in_range b -> in_range c ->
  Stats.canonical a -> Stats.canonical b -> Stats.canonical c ->
  Stats.num_samples a + Stats.num_samples b < 2 ^ bits ->
  Stats.num_samples b + Stats.num_samples c < 2 ^ bits ->
  add (add a b) c = add a (add b c).
Proof.
  destruct a as [amn amx at_ an], b as [bmn bmx bt bn], c as [cmn cmx ct cn].
  unfold Stats.in_range, is_u64. simpl.
  intros (? & ? & ? & ?) (? & ? & ? & ?) (? & ? & ? & ?) Ca Cb Cc Hab Hbc.
  destruct (Z.eq_dec cn 0) as [->|Hc];
    [apply canonical_fields in Cc as (-> & -> & ->); rewrite !add_new_r; reflexivity|].
  destruct (Z.eq_dec bn 0) as [->|Hb].
  { apply canonical_fields in Cb as (-> & -> & ->). rewrite add_new_r.
    change (Stats.mk 0 0 0 0) with Stats.new.
    rewrite (add_new_l (Stats.mk cmn cmx ct cn));
      [reflexivity | unfold Stats.in_range, is_u64; simpl; lia | simpl; lia]. }
  destruct (Z.eq_dec an 0) as [->|Ha].
  { apply canonical_fields in Ca as (-> & -> & ->).
    change (Stats.mk 0 0 0 0) with Stats.new.
    rewrite (add_new_l (Stats.mk bmn bmx bt bn));
      [| unfold Stats.in_range, is_u64; simpl; lia | simpl; lia].
    symmetry. apply add_new_l.
    - unfold Stats.add, Stats.in_range. simpl.
      destruct (Z.ltb_spec 0 cn); [|lia]. simpl.
      rewrite wrap_small by lia.
      repeat split; try apply u64_range; try lia; split_tests; lia.
    - unfold Stats.add. simpl. destruct (Z.ltb_spec 0 cn); [|lia]. simpl.
      rewrite wrap_small by lia. lia. }
  unfold Stats.add. simpl.
  destruct (Z.ltb_spec 0 cn); [|lia].
  destruct (Z.ltb_spec 0 bn); [|lia]. simpl.
  rewrite (wrap_small bits (an + bn)), (wrap_small bits (bn + cn)) by lia.
  destruct (Z.ltb_spec 0 (bn + cn)); [|lia].
  destruct (Z.eqb_spec (an + bn) 0); [lia|].
  destruct (Z.eqb_spec an 0); [lia|].
  destruct (Z.eqb_spec bn 0); [lia|]. simpl.
  rewrite u64_add_l, u64_add_r, !Z.add_assoc.
  f_equal; split_tests; lia.
Qed.

Hypothesis bits_pos : 0 < bits.

Local Abbreviation exact_inv := (Stats.exact_inv bits).

Lemma exact_inv_new : exact_inv Stats.new.
Proof.
  unfold Stats.exact_inv, Stats.in_range, Stats.canonical, is_u64. simpl.
  repeat split; lia.
Qed.

Lemma exact_inv_record d s :
  is_u64 d -> exact_inv s ->
  Stats.total_time s + d < 2 ^ 64 ->
  Stats.num_samples s + 1 < 2 ^ bits ->
  exact_inv (record_time d s).
Proof.
  destruct s as [mn mx tot n].
  unfold Stats.exact_inv, Stats.in_range, Stats.canonical, is_u64. simpl.
  intros Hd ((? & ? & ? & ?) & Hc & Hb) Ht Hn.
  unfold Stats.record_time. simpl.
  destruct (Z.eqb_spec n 0) as [->|Hn0]; simpl;
    rewrite (wrap_small bits) by lia.
  - repeat split; lia.
  - rewrite u64_small by (unfold is_u64; lia).
    specialize (Hb ltac:(lia)).
    repeat split; split_tests; try lia; nia.
Qed.

Lemma exact_inv_add a b :
  exact_inv a -> exact_inv b ->
  Stats.total_time a + Stats.total_time b < 2 ^ 64 ->
  Stats.num_samples a + Stats.num_samples b < 2 ^ bits ->
  exact_inv (add a b).
Proof.
  destruct a as [amn amx at_ an], b as [bmn bmx bt bn].
  unfold Stats.exact_inv, Stats.in_range, Stats.canonical, is_u64. simpl.
  intros ((? & ? & ? & ?) & Ca & Ba) ((? & ? & ? & ?) & Cb & Bb) Ht Hn.
  unfold Stats.add. simpl.
  destruct (Z.ltb_spec 0 bn) as [Hbn|Hbn]; simpl.
  - specialize (Bb Hbn).
    rewrite (wrap_small bits), u64_small by (unfold is_u64; lia).
    destruct (Z.eqb_spec an 0) as [->|Han]; simpl.
    + apply canonical_fields in Ca as (-> & -> & ->).
      repeat split; lia.
    + specialize (Ba ltac:(lia)).
      repeat split; split_tests; try lia; nia.
  - repeat split; try lia; try apply Ca; try apply Ba; assumption.
Qed.

Lemma reachable_exact_inv s : Stats.reachable_exact bits s -> exact_inv s.
Proof.
  induction 1 as [|d s Hd Hs IH Ht Hn|a b Ha IHa Hb IHb Ht Hn].
  - apply exact_inv_new.
  - apply exact_inv_record; assumption.
  - apply exact_inv_add; assumption.
Qed.

Lemma avg_quot s :
  0 < Stats.num_samples s ->
  Stats.get_avg_time s = Stats.total_time s ÷ Stats.num_samples s.
Proof.
  intros Hn. unfold Stats.get_avg_time.
  destruct (Z.ltb_spec 0 (Stats.num_samples s)); [reflexivity|lia].
Qed.

Lemma avg_between s :
  exact_inv s -> 0 < Stats.num_samples s ->
  Stats.min_time s <= Stats.get_avg_time s <= Stats.max_time s.
Proof.
  intros Hs Hn. rewrite (avg_quot s Hn). revert Hs Hn.
  destruct s as [mn mx tot n].
  unfold Stats.exact_inv, Stats.in_range, is_u64. simpl.
  intros ((? & ? & ? & ?) & _ & Hb) Hn. specialize (Hb Hn).
  rewrite Z.quot_div_nonneg by lia. split.
  - apply Z.div_le_lower_bound; lia.
  - apply Z.div_le_upper_bound; lia.
Qed.

Lemma avg_empty s : Stats.num_samples s = 0 -> Stats.get_avg_time s = 0.
Proof. intros H. unfold Stats.get_avg_time. rewrite H. reflexivity. Qed.

End StatsFacts.

(** C6 (as stated, refuted).  A Stats value whose num_samples is 0 keeps
    whatever its other fields hold, and operator+= adds total_time of the
    left operand even then: merging the value {1, 1, 1, 0} with the empty
    value gives different results in the two orders.  And when the sum of
    two sample counts wraps to 0 the merge looks empty to the next merge:
    with a 32-bit counter, {5,5,5,1}, {0,0,0,2^32-1} and {9,9,9,1} merge
    to {9,9,14,1} one way and to {5,5,5,1} the other. *)
Lemma Stats_add_not_commutative_on_stale_fields :
  (Stats.in_range 32 (Stats.mk 1 1 1 0)
   /\ Stats.add 32 (Stats.mk 1 1 1 0) Stats.new
      <> Stats.add 32 Stats.new (Stats.mk 1 1 1 0))
  /\ Stats.add 32 (Stats.add 32 (Stats.mk 5 5 5 1) (Stats.mk 0 0 0 (2 ^ 32 - 1)))
                  (Stats.mk 9 9 9 1)
     = Stats.mk 9 9 14 1
  /\ Stats.add 32 (Stats.mk 5 5 5 1)
                  (Stats.add 32 (Stats.mk 0 0 0 (2 ^ 32 - 1)) (Stats.mk 9 9 9 1))
     = Stats.mk 5 5 5 1.
Proof.
  split; [split|split].
  - unfold Stats.in_range, is_u64. simpl. lia.
  - vm_compute. discriminate.
  - vm_compute. reflexivity.
  - vm_compute. reflexivity.
Qed.

(** C6 (amended).  operator+= is commutative on values within their types
    whose fields are all zero when num_samples is 0 (what the constructor
    and reset() establish); it is associative on such values when neither
    num_samples a + num_samples b nor num_samples b + num_samples c
    overflows the counter; and a += (empty value) leaves every a
    unchanged. *)
Theorem Stats_add_comm_assoc_identity (bits : Z) :
  (forall a b,
      Stats.in_range bits a -> Stats.in_range bits b ->
      Stats.canonical a -> Stats.canonical b ->
      Stats.add bits a b = Stats.add bits b a)
  /\ (forall a b c,
      Stats.in_range bits a -> Stats.in_range bits b -> Stats.in_range bits c ->
      Stats.canonical a -> Stats.canonical b -> Stats.canonical c ->
      Stats.num_samples a + Stats.num_samples b < 2 ^ bits ->
      Stats.num_samples b + Stats.num_samples c < 2 ^ bits ->
      Stats.add bits (Stats.add bits a b) c = Stats.add bits a (Stats.add bits b c))
  /\ (forall a, Stats.add bits a Stats.new = a).
Proof.
  split; [|split].
  - apply add_comm.
  - apply add_assoc.
  - apply add_new_r.
Qed.

Lemma Stats_add_comm_assoc_identity_witness :
  Stats.add 32 (Stats.mk 3 8 11 2) (Stats.mk 1 4 5 2)
  = Stats.add 32 (Stats.mk 1 4 5 2) (Stats.mk 3 8 11 2)
  /\ Stats.add 32 (Stats.add 32 (Stats.mk 3 8 11 2) (Stats.mk 1 4 5 2))
                  (Stats.mk 9 9 9 1)
     = Stats.add 32 (Stats.mk 3 8 11 2)
                    (Stats.add 32 (Stats.mk 1 4 5 2) (Stats.mk 9 9 9 1))
  /\ Stats.add 32 (Stats.mk 3 8 11 2) Stats.new = Stats.mk 3 8 11 2.
Proof.
  set (a := Stats.mk 3 8 11 2). set (b := Stats.mk 1 4 5 2).
  set (c := Stats.mk 9 9 9 1).
  destruct (Stats_add_comm_assoc_identity 32) as (Hcomm & Hassoc & Hid).
  assert (Ra : Stats.in_range 32 a) by (unfold Stats.in_range, is_u64; simpl; lia).
  assert (Rb : Stats.in_range 32 b) by (unfold Stats.in_range, is_u64; simpl; lia).
  assert (Rc : Stats.in_range 32 c) by (unfold Stats.in_range, is_u64; simpl; lia).
  assert (Ca : Stats.canonical a) by (intros E; discriminate E).
  assert (Cb : Stats.canonical b) by (intros E; discriminate E).
  assert (Cc : Stats.canonical c) by (intros E; discriminate E).
  split; [|split].
  - apply Hcomm; assumption.
  - apply Hassoc; try assumption; simpl; lia.
  - apply Hid.
Defined.

(** C7 (as stated, refuted).  total_time is a uint64_t and record_time adds
    to it unchecked: two samples of 2^64 - 1 microseconds leave
    total_time = 2^64 - 2 and num_samples = 2, so the average 2^63 - 1 is
    below min_time = 2^64 - 1. *)
Lemma Stats_avg_below_min_on_overflow :
  Stats.reachable 32 Stats.two_longest_samples
  /\ 0 < Stats.num_samples Stats.two_longest_samples
  /\ Stats.get_avg_time Stats.two_longest_samples = 2 ^ 63 - 1
  /\ Stats.min_time Stats.two_longest_samples = 2 ^ 64 - 1
  /\ ~ (Stats.min_time Stats.two_longest_samples
        <= Stats.get_avg_time Stats.two_longest_samples
        <= Stats.max_time Stats.two_longest_samples).
Proof.
  split; [|split; [|split; [|split]]].
  - unfold Stats.two_longest_samples. repeat constructor; unfold is_u64; lia.
  - vm_compute. reflexivity.
  - vm_compute. reflexivity.
  - vm_compute. reflexivity.
  - vm_compute. intros [H _]. apply H. reflexivity.
Qed.

(** C7 (amended).  For every Stats value with num_samples > 0,
    get_avg_time() is total_time / num_samples (truncating); for those
    built from the empty value by record_time and operator+= in which no
    addition to total_time or num_samples overflows, it lies between
    min_time and max_time; and for every Stats value with num_samples = 0,
    get_avg_time() is 0. *)
Theorem Stats_avg_between_min_max (bits : Z) (s : Stats.t) :
  0 < bits ->
  (0 < Stats.num_samples s ->
   Stats.get_avg_time s = Stats.total_time s ÷ Stats.num_samples s)
  /\ (Stats.reachable_exact bits s -> 0 < Stats.num_samples s ->
      Stats.min_time s <= Stats.get_avg_time s <= Stats.max_time s)
  /\ (Stats.num_samples s = 0 -> Stats.get_avg_time s = 0).
Proof.
  intros Hbits. split; [|split].
  - apply avg_quot.
  - intros Hs Hn. apply (avg_between bits); [|exact Hn].
    apply reachable_exact_inv; assumption.
  - apply avg_empty.
Qed.

Lemma Stats_avg_between_min_max_witness :
  Stats.get_avg_time (Stats.record_time 32 20 (Stats.record_time 32 10 Stats.new))
  = Stats.total_time (Stats.record_time 32 20 (Stats.record_time 32 10 Stats.new))
    ÷ Stats.num_samples (Stats.record_time 32 20 (Stats.record_time 32 10 Stats.new))
  /\ Stats.min_time (Stats.record_time 32 20 (Stats.record_time 32 10 Stats.new))
     <= Stats.get_avg_time (Stats.record_time 32 20 (Stats.record_time 32 10 Stats.new))
     <= Stats.max_time (Stats.record_time 32 20 (Stats.record_time 32 10 Stats.new)).
Proof.
  set (s := Stats.record_time 32 20 (Stats.record_time 32 10 Stats.new)).
  destruct (Stats_avg_between_min_max 32 s ltac:(lia)) as (Hq & Hb & _).
  split; [apply Hq; vm_compute; reflexivity|].
  apply Hb; [|vm_compute; reflexivity].
  unfold s.
  apply Stats.exact_record; [unfold is_u64; lia | | vm_compute; reflexivity
                            | vm_compute; reflexivity].
  apply Stats.exact_record; [unfold is_u64; lia | apply Stats.exact_new
                            | vm_compute; reflexivity | vm_compute; reflexivity].
Defined.

(** ** The slots array *)

Section SlotFacts.

Import ProfilingCollector.

Implicit Types sl : list Stats.t.

Lemma slot_read_ok i sl :
  0 <= i < Z.of_nat (length sl) ->
  exists s, slot_read i sl = Ok s /\ sl !! Z.to_nat i = Some s.
Proof.
  intros Hi. unfold slot_read.
  destruct (Z.leb_spec 0 i); [|lia].
  destruct (lookup_lt_is_Some_2 sl (Z.to_nat i)) as [s Hs]; [lia|].
  exists s. rewrite Hs. auto.
Qed.

Lemma slot_update_ok i f sl :
  0 <= i < Z.of_nat (length sl) ->
  exists s, sl !! Z.to_nat i = Some s
            /\ slot_update i f sl = Ok (<[Z.to_nat i := f s]> sl).
Proof.
  intros Hi. destruct (slot_read_ok i sl Hi) as (s & Hr & Hs).
  exists s. split; [exact Hs|]. unfold slot_update. rewrite Hr. reflexivity.
Qed.

(** reset(begin_idx, end_idx) within the array: the slots from begin_idx up
    to end_idx become empty and the others are kept. *)
Lemma reset_loop_ok n i sl :
  0 <= i -> i + Z.of_nat n <= Z.of_nat (length sl) ->
  exists sl',
    reset_loop n i sl = Ok sl'
    /\ length sl' = length sl
    /\ forall j : nat,
        sl' !! j = if decide (i <= Z.of_nat j < i + Z.of_nat n)
                   then Some Stats.new else sl !! j.
Proof.
  revert i sl. induction n as [|n IH]; intros i sl Hi Hlen.
  - exists sl. simpl. repeat split. intros j. case_decide; [lia|reflexivity].
  - simpl. destruct (slot_update_ok i Stats.reset sl) as (s & Hs & ->); [lia|].
    simpl.
    destruct (IH (i + 1) (<[Z.to_nat i := Stats.reset s]> sl)) as (sl' & -> & Hl & Hj).
    { lia. } { rewrite length_insert. lia. }
    exists sl'. split; [reflexivity|]. split.
    { rewrite Hl. apply length_insert. }
    intros j. rewrite Hj.
    destruct (decide (Z.to_nat i = j)) as [<-|Hne].
    + rewrite list_lookup_insert_eq by lia.
      repeat case_decide; try lia. reflexivity.
    + rewrite list_lookup_insert_ne by exact Hne.
      repeat case_decide; try lia; reflexivity.
Qed.

Lemma reset_slots_ok b e sl :
  0 <= b <= e -> e <= Z.of_nat (length sl) ->
  exists sl',
    reset_slots b e sl = Ok sl'
    /\ length sl' = length sl
    /\ forall j : nat,
        sl' !! j = if decide (b <= Z.of_nat j < e) then Some Stats.new else sl !! j.
Proof.
  intros Hb He. unfold reset_slots.
  destruct (reset_loop_ok (Z.to_nat (e - b)) b sl) as (sl' & H1 & H2 & H3); [lia|lia|].
  exists sl'. split; [exact H1|]. split; [exact H2|].
  intros j. rewrite H3. repeat case_decide; try lia; reflexivity.
Qed.

(** memmove(slots + k, slots, n) with k + n the size of the array. *)
Lemma memmove_shift k n sl :
  0 <= k -> 0 <= n -> k + n = Z.of_nat (length sl) ->
  exists sl',
    memmove k 0 n sl = Ok sl'
    /\ length sl' = length sl
    /\ forall j : nat,
        (j < length sl)%nat ->
        sl' !! j = if decide (k <= Z.of_nat j) then sl !! (j - Z.to_nat k)%nat
                   else sl !! j.
Proof.
  intros Hk Hn Hlen. unfold memmove.
  destruct (Z.leb_spec 0 k); [|lia]. destruct (Z.leb_spec 0 n); [|lia].
  destruct (Z.leb_spec (k + n) (Z.of_nat (length sl))); [|lia].
  destruct (Z.leb_spec (0 + n) (Z.of_nat (length sl))); [|lia].
  simpl. eexists. split; [reflexivity|].
  rewrite drop_0, (drop_ge sl) by lia. rewrite app_nil_r.
  split.
  - rewrite length_app, !length_take. lia.
  - intros j Hj. case_decide.
    + rewrite lookup_app_r by (rewrite length_take; lia).
      rewrite length_take.
      replace (Z.to_nat k `min` length sl)%nat with (Z.to_nat k) by lia.
      apply lookup_take_lt. lia.
    + rewrite lookup_app_l by (rewrite length_take; lia).
      apply lookup_take_lt. lia.
Qed.

End SlotFacts.

(** ** The ring of a collector *)

Section CollectorFacts.

Import ProfilingCollector.

Variables NUM_SLOTS SLOT_DURATION_MS bits : Z.
Variable NDEBUG : bool.

Local Abbreviation wf := (wf NUM_SLOTS).
Local Abbreviation time_bucket := (time_bucket SLOT_DURATION_MS).
Local Abbreviation shift_slots := (shift_slots NUM_SLOTS).
Local Abbreviation advance_to := (advance_to NUM_SLOTS NDEBUG).
Local Abbreviation retained := (retained NUM_SLOTS).
Local Abbreviation record_time := (record_time NUM_SLOTS SLOT_DURATION_MS bits NDEBUG).
Local Abbreviation accumulate_loop := (accumulate_loop bits).
Local Abbreviation accumulate_stats := (accumulate_stats NUM_SLOTS SLOT_DURATION_MS bits).

Implicit Types (c : t) (sl : list Stats.t).

Lemma time_bucket_u64 x :
  0 < SLOT_DURATION_MS -> is_u64 x -> is_u64 (time_bucket x).
Proof.
  unfold is_u64, ProfilingCollector.time_bucket. intros HD [H0 H1]. split.
  - apply Z.div_pos; lia.
  - apply Z.le_lt_trans with x; [|exact H1].
    apply Z.div_le_upper_bound; nia.
Qed.

Lemma time_bucket_mono x y :
  0 < SLOT_DURATION_MS -> x <= y -> time_bucket x <= time_bucket y.
Proof.
  intros HD Hxy. unfold ProfilingCollector.time_bucket.
  apply Z.div_le_mono; lia.
Qed.

(** A clock that moved by n slot durations moved by n buckets at least. *)
Lemma time_bucket_far x y n :
  0 < SLOT_DURATION_MS -> 0 <= n ->
  x + n * SLOT_DURATION_MS * 1000 <= y ->
  time_bucket x + n <= time_bucket y.
Proof.
  intros HD Hn Hxy. unfold ProfilingCollector.time_bucket.
  rewrite <- Z.div_add by lia.
  apply Z.div_le_mono; lia.
Qed.

(** The slots after the ring moved by [shift]: the first [shift] are
    empty, and slot j holds what slot j - shift held. *)
Lemma shift_slots_ok shift sl :
  Z.of_nat (length sl) = NUM_SLOTS -> 0 <= shift ->
  exists sl',
    shift_slots shift sl = Ok sl'
    /\ length sl' = length sl
    /\ forall j : nat,
        (j < length sl)%nat ->
        sl' !! j = if decide (Z.of_nat j < shift) then Some Stats.new
                   else sl !! (j - Z.to_nat shift)%nat.
Proof.
  intros Hlen Hs. unfold ProfilingCollector.shift_slots.
  destruct (Z.ltb_spec shift NUM_SLOTS) as [Hlt|Hge].
  - destruct (memmove_shift shift (NUM_SLOTS - shift) sl) as (sl1 & -> & Hl1 & Hj1);
      [lia|lia|lia|]. simpl.
    replace (NUM_SLOTS - (NUM_SLOTS - shift)) with shift by lia.
    destruct (reset_slots_ok 0 shift sl1) as (sl2 & -> & Hl2 & Hj2); [lia|lia|].
    exists sl2. split; [reflexivity|]. split; [congruence|].
    intros j Hj. rewrite Hj2.
    repeat case_decide; try lia; try reflexivity.
    rewrite Hj1 by exact Hj. case_decide; [reflexivity|lia].
  - simpl. rewrite Z.sub_0_r.
    destruct (reset_slots_ok 0 NUM_SLOTS sl) as (sl2 & -> & Hl2 & Hj2); [lia|lia|].
    exists sl2. split; [reflexivity|]. split; [exact Hl2|].
    intros j Hj. rewrite Hj2. repeat case_decide; try lia; reflexivity.
Qed.

(** The ring moved on to a later bucket. *)
Lemma advance_to_later nowb c :
  wf c -> head_time_bucket c < nowb < 2 ^ 64 ->
  exists sl',
    advance_to nowb c = Ok (mk (key c) nowb sl' (this_iter c))
    /\ length sl' = length (slots c)
    /\ forall j : nat,
        (j < length (slots c))%nat ->
        sl' !! j = if decide (Z.of_nat j < nowb - head_time_bucket c)
                   then Some Stats.new
                   else slots c !! (j - Z.to_nat (nowb - head_time_bucket c))%nat.
Proof.
  intros [Hlen Hh] Hnow. unfold is_u64 in Hh.
  unfold ProfilingCollector.advance_to, assert.
  destruct (Z.eqb_spec nowb (head_time_bucket c)); [lia|].
  destruct (Z.ltb_spec (head_time_bucket c) nowb); [|lia].
  rewrite orb_true_r. simpl.
  rewrite u64_small by (unfold is_u64; lia).
  destruct (shift_slots_ok (nowb - head_time_bucket c) (slots c))
    as (sl' & -> & Hl & Hj); [exact Hlen|lia|].
  exists sl'. simpl. auto.
Qed.

(** Whatever the clock reads, moving the ring on stays within the array;
    it keeps the key and the iterator, and sets the head. *)
Lemma advance_to_shape nowb c :
  wf c -> is_u64 nowb ->
  (advance_to nowb c = Fault AssertFailed
   /\ NDEBUG = false /\ nowb < head_time_bucket c)
  \/ (exists c1,
        advance_to nowb c = Ok c1
        /\ wf c1 /\ head_time_bucket c1 = nowb
        /\ key c1 = key c /\ this_iter c1 = this_iter c).
Proof.
  intros [Hlen Hh] Hnow.
  unfold ProfilingCollector.advance_to, assert.
  destruct (Z.eqb_spec nowb (head_time_bucket c)) as [->|Hne].
  { right. exists c. repeat split; auto. apply Hh. apply Hh. }
  destruct (shift_slots_ok (u64 (nowb - head_time_bucket c)) (slots c))
    as (sl' & Hs & Hl & _); [exact Hlen|apply u64_range|].
  destruct (Z.ltb_spec (head_time_bucket c) nowb) as [Hlt|Hge];
    [rewrite orb_true_r|rewrite orb_false_r; destruct NDEBUG].
  - simpl. rewrite Hs. simpl. right. eexists. split; [reflexivity|].
    unfold ProfilingCollector.wf. simpl. repeat split; try lia; apply Hnow.
  - simpl. rewrite Hs. simpl. right. eexists. split; [reflexivity|].
    unfold ProfilingCollector.wf. simpl. repeat split; try lia; apply Hnow.
  - simpl. left. repeat split. lia.
Qed.

Lemma advance_to_total nowb c :
  wf c -> is_u64 nowb -> head_time_bucket c <= nowb ->
  exists c1, advance_to nowb c = Ok c1 /\ wf c1 /\ head_time_bucket c1 = nowb.
Proof.
  intros Hc Hnow Hle.
  destruct (advance_to_shape nowb c Hc Hnow) as [(_ & _ & Hlt)|(c1 & H1 & H2 & H3 & _)].
  - lia.
  - exists c1. auto.
Qed.

(** The guard of record_time admits only slot indices of the array. *)
Lemma retained_in_bounds head b :
  0 <= NUM_SLOTS -> is_u64 head -> 0 <= b -> retained head b = true ->
  u64 (head - b) = head - b /\ 0 <= head - b < NUM_SLOTS.
Proof.
  unfold is_u64, ProfilingCollector.retained. intros HN Hh Hb Hg.
  apply andb_true_iff in Hg as [H1 H2].
  apply Z.leb_le in H1. apply Z.ltb_lt in H2.
  split; [apply u64_small; unfold is_u64; lia|].
  split; [lia|].
  destruct (Z_lt_dec (b + NUM_SLOTS) (2 ^ 64)) as [Hs|Hs].
  - rewrite u64_small in H2 by (unfold is_u64; lia). lia.
  - lia.
Qed.

(** Without overflow the guard is the membership of the sample's bucket in
    the retained range. *)
Lemma retained_spec head b :
  0 <= b -> b + NUM_SLOTS < 2 ^ 64 -> 0 <= NUM_SLOTS ->
  retained head b = true <-> head - NUM_SLOTS + 1 <= b <= head.
Proof.
  intros Hb Hs HN. unfold ProfilingCollector.retained.
  rewrite u64_small by (unfold is_u64; lia).
  rewrite andb_true_iff, Z.leb_le, Z.ltb_lt. lia.
Qed.

Lemma bucket_plus_slots_small x :
  build_ok NUM_SLOTS SLOT_DURATION_MS -> is_u64 x ->
  0 <= time_bucket x /\ time_bucket x + NUM_SLOTS < 2 ^ 64.
Proof.
  unfold build_ok, is_u64. intros ((HN0 & HN1) & HD0 & HD1) Hx.
  assert (Hb : 0 <= time_bucket x) by (apply Z.div_pos; lia).
  split; [exact Hb|].
  assert (time_bucket x <= 2 ^ 55).
  { unfold ProfilingCollector.time_bucket.
    apply Z.lt_succ_r. apply Z.div_lt_upper_bound; lia. }
  lia.
Qed.

Lemma slot_update_length i f sl sl' :
  slot_update i f sl = Ok sl' -> length sl' = length sl.
Proof.
  unfold slot_update. destruct (slot_read i sl) as [s|e]; simpl; [|discriminate].
  intros [= <-]. apply length_insert.
Qed.

(** What record_time does once the ring has moved on. *)
Lemma record_time_after_advance now begin_time d c c1 :
  0 < SLOT_DURATION_MS -> is_u64 begin_time ->
  advance_to (time_bucket now) c = Ok c1 -> wf c1 ->
  exists c2,
    record_time now begin_time d c = Ok c2
    /\ wf c2 /\ head_time_bucket c2 = head_time_bucket c1
    /\ (retained (head_time_bucket c1) (time_bucket begin_time) = false -> c2 = c1)
    /\ (retained (head_time_bucket c1) (time_bucket begin_time) = true ->
        exists s,
          slots c1 !! Z.to_nat (head_time_bucket c1 - time_bucket begin_time) = Some s
          /\ slots c2
             = <[Z.to_nat (head_time_bucket c1 - time_bucket begin_time)
                 := Stats.record_time bits d s]> (slots c1)).
Proof.
  intros HD Hb Hadv [Hlen Hh].
  unfold ProfilingCollector.record_time. rewrite Hadv. simpl.
  destruct (retained (head_time_bucket c1) (time_bucket begin_time)) eqn:Hg.
  - destruct (retained_in_bounds _ _ ltac:(lia) Hh
                (proj1 (time_bucket_u64 _ HD Hb)) Hg) as [Hu Hi].
    rewrite Hu.
    destruct (slot_update_ok (head_time_bucket c1 - time_bucket begin_time)
                (Stats.record_time bits d) (slots c1)) as (s & Hs & ->); [lia|].
    simpl. eexists. split; [reflexivity|].
    unfold ProfilingCollector.wf. simpl. rewrite length_insert.
    split; [auto|]. split; [reflexivity|]. split; [discriminate|].
    intros _. exists s. auto.
  - exists c1. split; [reflexivity|].
    split; [split; assumption|]. split; [reflexivity|].
    split; [reflexivity|discriminate].
Qed.

(** A call of record_time that returns leaves a well-formed collector
    whose head is the bucket of the clock. *)
Lemma record_time_wf now begin_time d c c2 :
  0 < SLOT_DURATION_MS -> wf c -> is_u64 now ->
  record_time now begin_time d c = Ok c2 ->
  wf c2 /\ head_time_bucket c2 = time_bucket now.
Proof.
  intros HD Hc Hnow. unfold ProfilingCollector.record_time.
  destruct (advance_to_shape (time_bucket now) c Hc (time_bucket_u64 _ HD Hnow))
    as [(-> & _)|(c1 & -> & [Hlen Hh] & Hhead & _)]; simpl; [discriminate|].
  destruct (retained _ _).
  - destruct (slot_update _ _ _) as [sl|e] eqn:Hu; simpl; [|discriminate].
    intros [= <-]. unfold ProfilingCollector.wf. simpl.
    rewrite (slot_update_length _ _ _ _ Hu). auto.
  - intros [= <-]. unfold ProfilingCollector.wf. auto.
Qed.

(** The loop of accumulate_stats between two positions of the array. *)
Lemma accumulate_loop_ok fuel s e sl acc :
  0 <= s <= e -> e <= Z.of_nat (length sl) -> (Z.to_nat (e - s) <= fuel)%nat ->
  accumulate_loop fuel s e sl acc
  = Ok (foldl (Stats.add bits) acc
          (take (Z.to_nat (e - s)) (drop (Z.to_nat s) sl))).
Proof.
  revert s acc. induction fuel as [|fuel IH]; intros s acc Hs He Hf.
  - simpl. destruct (Z.eqb_spec s e); [|lia]. subst e.
    rewrite Z.sub_diag. reflexivity.
  - simpl. destruct (Z.eqb_spec s e) as [->|Hne].
    + rewrite Z.sub_diag. reflexivity.
    + destruct (slot_read_ok s sl) as (x & -> & Hx); [lia|]. simpl.
      rewrite IH by lia.
      rewrite (drop_S _ _ _ Hx).
      replace (Z.to_nat (e - s)) with (S (Z.to_nat (e - (s + 1)))) by lia.
      replace (Z.to_nat (s + 1)) with (S (Z.to_nat s)) by lia.
      reflexivity.
Qed.

Lemma accumulate_stats_ok w c :
  0 < NUM_SLOTS -> 0 < SLOT_DURATION_MS -> wf c -> 0 <= w ->
  accumulate_stats w c
  = Ok (merge_range bits 1 (Z.min (1 + w / SLOT_DURATION_MS) NUM_SLOTS) (slots c)).
Proof.
  intros HN HD [Hlen _] Hw. unfold ProfilingCollector.accumulate_stats, merge_range.
  assert (0 <= w / SLOT_DURATION_MS) by (apply Z.div_pos; lia).
  apply accumulate_loop_ok; lia.
Qed.

(** Merging empty values changes nothing. *)
Lemma foldl_add_empty acc sl :
  Forall (λ s, s = Stats.new) sl -> foldl (Stats.add bits) acc sl = acc.
Proof.
  intros H. revert acc. induction H as [|s sl -> _ IH]; intros acc; [reflexivity|].
  simpl. rewrite add_new_r. apply IH.
Qed.

(** C1.  For every collector and every window_duration_ms,
    accumulate_stats returns the merge, from an empty Stats, of the slots
    with indices in [1, min(1 + window_duration_ms / SLOT_DURATION_MS,
    NUM_SLOTS)); what slot 0 holds has no part in the result; and
    accumulate_stats(0) returns a result with num_samples = 0. *)
Theorem accumulate_stats_merges_completed_slots c w :
  build_ok NUM_SLOTS SLOT_DURATION_MS -> wf c -> 0 <= w ->
  accumulate_stats w c
  = Ok (merge_range bits 1 (Z.min (1 + w / SLOT_DURATION_MS) NUM_SLOTS) (slots c))
  /\ (forall s0,
        accumulate_stats w
          (mk (key c) (head_time_bucket c) (<[0%nat := s0]> (slots c)) (this_iter c))
        = accumulate_stats w c)
  /\ (exists r, accumulate_stats 0 c = Ok r /\ Stats.num_samples r = 0).
Proof.
  intros ((HN & _) & HD & _) Hc Hw. split; [|split].
  - apply accumulate_stats_ok; assumption.
  - intros s0. rewrite !accumulate_stats_ok; try assumption.
    + unfold merge_range. simpl.
      replace (Z.to_nat 1) with 1%nat by lia.
      rewrite drop_insert_lt by lia. reflexivity.
    + destruct Hc as [Hlen Hh]. split; simpl; [|exact Hh].
      rewrite length_insert. exact Hlen.
  - exists Stats.new. split; [|reflexivity].
    rewrite accumulate_stats_ok by (assumption || lia).
    rewrite Z.div_0_l by lia.
    replace (Z.min (1 + 0) NUM_SLOTS) with 1 by lia.
    reflexivity.
Qed.

(** C2.  When the clock's bucket now_bucket is later than the head h, the
    ring moves by shift = now_bucket - h: if shift >= NUM_SLOTS every slot
    becomes empty; otherwise what slot i held is in slot i + shift for
    every i with i + shift <= NUM_SLOTS - 1, the slots 0 .. shift-1 are
    empty, and what would move past the last slot is gone (the array keeps
    its NUM_SLOTS slots); the head becomes now_bucket.  When now_bucket is
    h the collector is unchanged. *)
Theorem advance_to_moves_ring c now_bucket :
  wf c -> is_u64 now_bucket -> head_time_bucket c < now_bucket ->
  (exists c',
      advance_to now_bucket c = Ok c'
      /\ head_time_bucket c' = now_bucket
      /\ Z.of_nat (length (slots c')) = NUM_SLOTS
      /\ (NUM_SLOTS <= now_bucket - head_time_bucket c ->
          forall i : nat, Z.of_nat i < NUM_SLOTS -> slots c' !! i = Some Stats.new)
      /\ (now_bucket - head_time_bucket c < NUM_SLOTS ->
          (forall i : nat,
              Z.of_nat i + (now_bucket - head_time_bucket c) <= NUM_SLOTS - 1 ->
              slots c' !! (i + Z.to_nat (now_bucket - head_time_bucket c))%nat
              = slots c !! i)
          /\ (forall i : nat,
              Z.of_nat i < now_bucket - head_time_bucket c ->
              slots c' !! i = Some Stats.new)))
  /\ advance_to (head_time_bucket c) c = Ok c.
Proof.
  intros Hc Hnow Hlt. split.
  - destruct (advance_to_later now_bucket c Hc) as (sl' & Hadv & Hl & Hj).
    { unfold is_u64 in Hnow. lia. }
    destruct Hc as [Hlen Hh].
    eexists. split; [exact Hadv|]. simpl.
    split; [reflexivity|]. split; [lia|]. split.
    + intros Hge i Hi. rewrite Hj by lia. case_decide; [reflexivity|lia].
    + intros Hsh. split.
      * intros i Hi. rewrite Hj by lia. case_decide; [lia|].
        f_equal. lia.
      * intros i Hi. rewrite Hj by lia. case_decide; [reflexivity|lia].
  - unfold ProfilingCollector.advance_to. rewrite Z.eqb_refl. reflexivity.
Qed.

(** C4.  Once the ring has moved on to the bucket of the clock, a sample
    whose bucket begin_time / (SLOT_DURATION_MS * 1000) is outside
    [head_time_bucket - NUM_SLOTS + 1, head_time_bucket] changes nothing:
    record_time returns the collector as the move left it, and no fault.
    The sample is then in no later result: every accumulate_stats on the
    collector returned is the one on the collector without the sample.
    The move itself returns whenever the clock has not gone back. *)
Theorem record_time_drops_out_of_range c now begin_time d :
  build_ok NUM_SLOTS SLOT_DURATION_MS -> wf c -> is_u64 now -> is_u64 begin_time ->
  (forall c1,
      advance_to (time_bucket now) c = Ok c1 ->
      ~ (head_time_bucket c1 - NUM_SLOTS + 1 <= time_bucket begin_time
         <= head_time_bucket c1) ->
      record_time now begin_time d c = Ok c1
      /\ forall w c2,
          record_time now begin_time d c = Ok c2 ->
          accumulate_stats w c2 = accumulate_stats w c1)
  /\ (head_time_bucket c <= time_bucket now ->
      exists c1, advance_to (time_bucket now) c = Ok c1).
Proof.
  intros Hb Hc Hnow Hbegin. split.
  - intros c1 Hadv Hout.
    assert (Hrec : record_time now begin_time d c = Ok c1).
    { unfold ProfilingCollector.record_time. rewrite Hadv. simpl.
      destruct (bucket_plus_slots_small begin_time Hb Hbegin) as [H0 H1].
      destruct (retained (head_time_bucket c1) (time_bucket begin_time)) eqn:Hg;
        [|reflexivity].
      apply retained_spec in Hg; [contradiction|lia|lia|].
      destruct Hb as ((? & ?) & _). lia. }
    split; [exact Hrec|].
    intros w c2 Hc2. rewrite Hrec in Hc2. injection Hc2 as <-. reflexivity.
  - intros Hle.
    destruct Hb as (_ & HD & _).
    destruct (advance_to_total (time_bucket now) c Hc (time_bucket_u64 _ HD Hnow) Hle)
      as (c1 & H1 & _).
    exists c1. exact H1.
Qed.

(** C10.  Whatever the collector, the clock and the sample, when the guard
    of record_time lets the write happen the slot index
    head_time_bucket - begin_time_bucket lies in [0, NUM_SLOTS - 1] (and
    the uint64_t subtraction does not wrap); record_time makes no access
    outside the slots array and its loops end: the only fault it can end
    in is the failed assert of a clock that went back. *)
Theorem record_time_stays_in_bounds c now begin_time d :
  0 < SLOT_DURATION_MS -> wf c -> is_u64 now -> is_u64 begin_time ->
  (forall c1,
      advance_to (time_bucket now) c = Ok c1 ->
      retained (head_time_bucket c1) (time_bucket begin_time) = true ->
      u64 (head_time_bucket c1 - time_bucket begin_time)
      = head_time_bucket c1 - time_bucket begin_time
      /\ 0 <= head_time_bucket c1 - time_bucket begin_time <= NUM_SLOTS - 1
      /\ is_Some (slots c1 !! Z.to_nat (head_time_bucket c1 - time_bucket begin_time)))
  /\ record_time now begin_time d c <> Fault OutOfBounds
  /\ record_time now begin_time d c <> Fault Diverged.
Proof.
  intros HD Hc Hnow Hbegin.
  pose proof (time_bucket_u64 _ HD Hnow) as Hnb.
  pose proof (time_bucket_u64 _ HD Hbegin) as Hbb.
  assert (Hkey : forall c1,
             advance_to (time_bucket now) c = Ok c1 ->
             exists c2, record_time now begin_time d c = Ok c2).
  { intros c1 Hadv.
    destruct (advance_to_shape _ c Hc Hnb) as [(E & _)|(c1' & E & Hc1 & _)];
      rewrite E in Hadv; [discriminate|]. injection Hadv as ->.
    destruct (record_time_after_advance now begin_time d c c1 HD Hbegin E Hc1)
      as (c2 & H2 & _).
    exists c2. exact H2. }
  split; [|split].
  - intros c1 Hadv Hg.
    destruct (advance_to_shape _ c Hc Hnb) as [(E & _)|(c1' & E & [Hlen Hh] & _)];
      rewrite E in Hadv; [discriminate|]. injection Hadv as ->.
    destruct (retained_in_bounds _ _ ltac:(lia) Hh (proj1 Hbb) Hg) as [Hu Hi].
    split; [exact Hu|]. split; [lia|].
    apply lookup_lt_is_Some_2. lia.
  - destruct (advance_to_shape _ c Hc Hnb) as [(E & _)|(c1 & E & _)].
    + unfold ProfilingCollector.record_time. rewrite E. simpl. discriminate.
    + destruct (Hkey c1 E) as (c2 & ->). discriminate.
  - destruct (advance_to_shape _ c Hc Hnb) as [(E & _)|(c1 & E & _)].
    + unfold ProfilingCollector.record_time. rewrite E. simpl. discriminate.
    + destruct (Hkey c1 E) as (c2 & ->). discriminate.
Qed.

(** C5 (amended).  When the clock has advanced by at least
    NUM_SLOTS * SLOT_DURATION_MS milliseconds between two calls of
    record_time, the second call returns and the whole prior history is
    gone: every slot is empty, but for the slot of the new sample.  When
    the new sample began in the bucket of the clock (slot 0, which
    accumulate_stats leaves out) or is dropped, accumulate_stats returns
    an empty result, so num_samples = 0, for every window. *)
Theorem long_gap_clears_history c now1 b1 d1 c1 now2 b2 d2 :
  build_ok NUM_SLOTS SLOT_DURATION_MS -> wf c ->
  is_u64 now1 -> is_u64 now2 -> is_u64 b2 ->
  now1 + NUM_SLOTS * SLOT_DURATION_MS * 1000 <= now2 ->
  record_time now1 b1 d1 c = Ok c1 ->
  exists c2,
    record_time now2 b2 d2 c1 = Ok c2
    /\ (forall (j : nat) s,
          slots c2 !! j = Some s ->
          s = Stats.new
          \/ (s = Stats.record_time bits d2 Stats.new
              /\ Z.of_nat j = time_bucket now2 - time_bucket b2))
    /\ (time_bucket b2 = time_bucket now2
        \/ ~ (time_bucket now2 - NUM_SLOTS + 1 <= time_bucket b2 <= time_bucket now2) ->
        forall w, 0 <= w -> accumulate_stats w c2 = Ok Stats.new).
Proof.
  intros Hb Hc Hn1 Hn2 Hb2 Hgap H1.
  pose proof Hb as ((HN0 & HN1) & HD & _).
  destruct (record_time_wf _ _ _ _ _ HD Hc Hn1 H1) as [Hc1 Hh1].
  pose proof (time_bucket_far now1 now2 NUM_SLOTS HD ltac:(lia) Hgap) as Hfar.
  pose proof (time_bucket_u64 _ HD Hn2) as Hnb2.
  destruct (advance_to_later (time_bucket now2) c1 Hc1) as (sl' & Hadv & Hl & Hj).
  { unfold is_u64 in Hnb2. lia. }
  assert (Hlen1 : Z.of_nat (length (slots c1)) = NUM_SLOTS) by apply Hc1.
  assert (Hnew : forall (j : nat) s, sl' !! j = Some s -> s = Stats.new).
  { intros j s Hs. pose proof (lookup_lt_Some _ _ _ Hs) as Hlt.
    rewrite Hj in Hs by lia. case_decide; [congruence|lia]. }
  set (cA := mk (key c1) (time_bucket now2) sl' (this_iter c1)) in *.
  assert (HcA : wf cA) by (split; simpl; [lia|exact Hnb2]).
  destruct (record_time_after_advance now2 b2 d2 c1 cA HD Hb2 Hadv HcA)
    as (c2 & H2 & Hc2 & Hh2 & Hno & Hyes).
  destruct (bucket_plus_slots_small b2 Hb Hb2) as [Hb0 Hbs].
  simpl in Hno, Hyes.
  exists c2. split; [exact H2|].
  destruct (retained (time_bucket now2) (time_bucket b2)) eqn:Hg.
  - destruct (Hyes eq_refl) as (s0 & Hs0 & Hsl).
    apply Hnew in Hs0 as ->.
    apply retained_spec in Hg; [|lia|lia|lia].
    split.
    + intros j s Hs. rewrite Hsl in Hs.
      destruct (decide (Z.to_nat (time_bucket now2 - time_bucket b2) = j)) as [<-|Hne].
      * rewrite list_lookup_insert_eq in Hs by lia.
        right. split; [congruence|lia].
      * rewrite list_lookup_insert_ne in Hs by exact Hne.
        left. eapply Hnew. exact Hs.
    + intros [Heq|Hout] w Hw; [|contradiction].
      rewrite accumulate_stats_ok by assumption.
      unfold merge_range. rewrite Hsl, Heq, Z.sub_diag.
      replace (Z.to_nat 1) with 1%nat by lia.
      rewrite drop_insert_lt by (simpl; lia).
      f_equal. apply foldl_add_empty.
      apply Forall_take, Forall_drop, Forall_lookup. exact Hnew.
  - rewrite (Hno eq_refl). split.
    + intros j s Hs. left. eapply Hnew. exact Hs.
    + intros _ w Hw.
      rewrite accumulate_stats_ok by assumption.
      unfold merge_range. f_equal. apply foldl_add_empty.
      apply Forall_take, Forall_drop, Forall_lookup. exact Hnew.
Qed.

End CollectorFacts.

(** ** Instances at concrete collectors *)

Import ProfilingCollector.

Lemma build_5_1000 : build_ok 5 1000.
Proof. unfold build_ok. lia. Defined.

Lemma example_collector_wf : wf 5 example_collector.
Proof. split; [reflexivity | unfold is_u64; simpl; lia]. Defined.

Lemma accumulate_stats_merges_completed_slots_witness :
  build_ok 5 1000 /\ wf 5 example_collector /\ 0 <= 2500
  /\ accumulate_stats 5 1000 32 2500 example_collector
     = Ok (merge_range 32 1 (Z.min (1 + 2500 / 1000) 5) (slots example_collector)).
Proof.
  split; [exact build_5_1000|]. split; [exact example_collector_wf|].
  split; [lia|].
  exact (proj1 (accumulate_stats_merges_completed_slots 5 1000 32
                  example_collector 2500 build_5_1000 example_collector_wf
                  ltac:(lia))).
Defined.

Lemma advance_to_moves_ring_witness :
  wf 5 example_collector /\ is_u64 9 /\ head_time_bucket example_collector < 9
  /\ advance_to 5 false (head_time_bucket example_collector) example_collector
     = Ok example_collector.
Proof.
  split; [exact example_collector_wf|].
  split; [unfold is_u64; lia|]. split; [simpl; lia|].
  refine (proj2 (advance_to_moves_ring 5 false example_collector 9
                   example_collector_wf _ _)).
  - unfold is_u64; lia.
  - simpl; lia.
Defined.

Lemma record_time_drops_out_of_range_witness :
  build_ok 5 1000 /\ wf 5 example_collector /\ is_u64 7500000 /\ is_u64 1000000
  /\ (head_time_bucket example_collector <= time_bucket 1000 7500000 ->
      exists c1, advance_to 5 false (time_bucket 1000 7500000) example_collector = Ok c1).
Proof.
  split; [exact build_5_1000|]. split; [exact example_collector_wf|].
  split; [unfold is_u64; lia|]. split; [unfold is_u64; lia|].
  refine (proj2 (record_time_drops_out_of_range 5 1000 32 false example_collector
                   7500000 1000000 20 build_5_1000 example_collector_wf _ _));
    unfold is_u64; lia.
Defined.

Lemma record_time_stays_in_bounds_witness :
  0 < 1000 /\ wf 5 example_collector /\ is_u64 9000000 /\ is_u64 8000000
  /\ record_time 5 1000 32 false 9000000 8000000 20 example_collector
     <> Fault OutOfBounds.
Proof.
  split; [lia|]. split; [exact example_collector_wf|].
  split; [unfold is_u64; lia|]. split; [unfold is_u64; lia|].
  refine (proj1 (proj2 (record_time_stays_in_bounds 5 1000 32 false
                          example_collector 9000000 8000000 20 _
                          example_collector_wf _ _)));
    unfold is_u64; lia.
Defined.

(** C5 (as stated, refuted).  With NUM_SLOTS = 5 and SLOT_DURATION_MS =
    1000, a sample is recorded at 0 s and, ten seconds later, the sample of
    a block that began at 9 s: the ring is cleared, and the sample goes to
    slot 1, the bucket it began in.  accumulate_stats(5000) right after
    counts it: num_samples is 1, not 0. *)
Lemma long_gap_then_old_sample_is_counted :
  long_block_after_gap = Ok (Stats.mk 1000000 1000000 1000000 1)
  /\ ~ (exists r, long_block_after_gap = Ok r /\ Stats.num_samples r = 0).
Proof.
  assert (E : long_block_after_gap = Ok (Stats.mk 1000000 1000000 1000000 1))
    by (vm_compute; reflexivity).
  split; [exact E|].
  intros (r & Hr & Hn). rewrite E in Hr. injection Hr as <-. discriminate Hn.
Qed.

Lemma long_gap_clears_history_witness :
  build_ok 5 1000 /\ wf 5 example_collector
  /\ is_u64 7000000 /\ is_u64 12000900 /\ is_u64 12000500
  /\ 7000000 + 5 * 1000 * 1000 <= 12000900
  /\ record_time 5 1000 32 false 7000000 7000000 3 example_collector
     = Ok (mk "draw" 7
             [Stats.mk 3 4 7 2; Stats.mk 2 6 8 2; Stats.new; Stats.mk 9 9 9 1;
              Stats.new] 0%nat)
  /\ exists c2,
      record_time 5 1000 32 false 12000900 12000500 4
        (mk "draw" 7
           [Stats.mk 3 4 7 2; Stats.mk 2 6 8 2; Stats.new; Stats.mk 9 9 9 1;
            Stats.new] 0%nat)
      = Ok c2.
Proof.
  split; [exact build_5_1000|]. split; [exact example_collector_wf|].
  split; [unfold is_u64; lia|]. split; [unfold is_u64; lia|].
  split; [unfold is_u64; lia|]. split; [lia|].
  split; [vm_compute; reflexivity|].
  destruct (long_gap_clears_history 5 1000 32 false example_collector
              7000000 7000000 3
              (mk "draw" 7
                 [Stats.mk 3 4 7 2; Stats.mk 2 6 8 2; Stats.new; Stats.mk 9 9 9 1;
                  Stats.new] 0%nat)
              12000900 12000500 4 build_5_1000 example_collector_wf)
    as (c2 & H2 & _); try (unfold is_u64; lia); try (vm_compute; reflexivity).
  exists c2. exact H2.
Defined.

Lemma wrap_1 bits : 0 < bits -> wrap bits 1 = 1.
Proof.
  intros H. apply wrap_small.
  pose proof (Z.pow_gt_1 2 bits ltac:(lia)) as [Hp _]. specialize (Hp H). lia.
Qed.

(** C3 (as stated, refuted).  begin_time is in microseconds: the call
    record_time(1000, 20) made with the clock at 1000 ms is for a sample
    that began 1 ms after the first one, in bucket 0.  It is recorded next
    to the first sample, in the slot that has become slot 1, and
    accumulate_stats(5000) reports {min 10, max 20, avg 15, count 2}. *)
Lemma scenario_with_begin_time_1000_us :
  scenario 32 false 1000 = Ok (10, 20, 15, 2)
  /\ scenario 32 true 1000 = Ok (10, 20, 15, 2)
  /\ scenario 32 false 1000 <> Ok (10, 10, 10, 1).
Proof.
  split; [vm_compute; reflexivity|].
  split; [vm_compute; reflexivity|].
  vm_compute. discriminate.
Qed.

(** C3 (amended).  With SLOT_DURATION_MS = 1000 and NUM_SLOTS = 5, from a
    new collector: record_time(0, 10) with the clock at 0 ms, then
    record_time(1000000, 20), a sample that began at 1000 ms = 1000000
    microseconds, with the clock at 1000 ms, then accumulate_stats(5000)
    at any later time (it does not read the clock), reports
    {min 10, max 10, avg 10, count 1}: the second sample is in slot 0,
    which accumulate_stats leaves out. *)
Theorem scenario_with_begin_time_1000_ms (bits : Z) (ndebug : bool) :
  0 < bits -> scenario bits ndebug 1000000 = Ok (10, 10, 10, 1).
Proof.
  intros Hbits. unfold scenario.
  destruct ndebug; cbv -[wrap]; rewrite !(wrap_1 bits Hbits); cbv -[wrap];
    rewrite ?(wrap_1 bits Hbits); reflexivity.
Qed.

Lemma scenario_with_begin_time_1000_ms_witness :
  0 < 32 /\ scenario 32 false 1000000 = Ok (10, 10, 10, 1).
Proof.
  split; [lia|]. apply scenario_with_begin_time_1000_ms. lia.
Defined.

(** ** The list of collectors *)

Section RegistryFacts.

Variable NUM_SLOTS : Z.

Local Abbreviation create := (create NUM_SLOTS).
Local Abbreviation step := (step NUM_SLOTS).
Local Abbreviation run := (run NUM_SLOTS).

Implicit Types (r : registry) (w : world) (l : list (iterator * ptr)).

Lemma reset_slots_replicate n :
  reset_slots 0 n (replicate (Z.to_nat n) Stats.new)
  = Ok (replicate (Z.to_nat n) Stats.new).
Proof.
  destruct (Z_le_gt_dec 0 n) as [Hn|Hn].
  - destruct (reset_slots_ok 0 n (replicate (Z.to_nat n) Stats.new))
      as (sl' & -> & Hl & Hj); [lia|rewrite length_replicate; lia|].
    f_equal. apply list_eq. intros j. rewrite Hj.
    case_decide; [|reflexivity].
    symmetry. apply lookup_replicate_2. lia.
  - unfold reset_slots. replace (Z.to_nat (n - 0)) with 0%nat by lia.
    reflexivity.
Qed.

(** The constructor returns: the new collector has empty slots and the
    iterator of the node appended for it. *)
Lemma create_ok this k r :
  create this k r
  = Ok (mk k 0 (replicate (Z.to_nat NUM_SLOTS) Stats.new) (next_node r),
        mkRegistry (Some (nodes r ++ [(next_node r, this)])) (S (next_node r))).
Proof.
  unfold ProfilingCollector.create, reset_all.
  rewrite reset_slots_replicate. simpl.
  unfold nodes. destruct (collectors r); reflexivity.
Qed.

Lemma create_registry_ok this r :
  registry_ok r ->
  registry_ok (mkRegistry (Some (nodes r ++ [(next_node r, this)])) (S (next_node r))).
Proof.
  intros (Hne & Hnd & Hlt). unfold registry_ok.
  change (nodes (mkRegistry (Some (nodes r ++ [(next_node r, this)]))
                   (S (next_node r))))
    with (nodes r ++ [(next_node r, this)]).
  simpl. split; [|split].
  - intros [= E]. apply app_eq_nil in E as [_ E]. discriminate E.
  - rewrite fmap_app. simpl. apply NoDup_app. split; [exact Hnd|].
    split; [|apply NoDup_singleton].
    intros it Hit Hin. apply list_elem_of_singleton in Hin as ->.
    apply Hlt in Hit. lia.
  - intros it. rewrite fmap_app. simpl. rewrite elem_of_app, list_elem_of_singleton.
    intros [Hit| ->]; [apply Hlt in Hit|]; lia.
Qed.

(** Erasing the node of an iterator keeps the other nodes in order. *)
Lemma erase_ok it l :
  it ∈ l.*1 -> erase it l = Ok (filter (λ n, n.1 ≠ it) l).
Proof. intros H. unfold erase. rewrite decide_True by exact H. reflexivity. Qed.

Lemma erase_stale it l : it ∉ l.*1 -> erase it l = Fault InvalidIterator.
Proof. intros H. unfold erase. rewrite decide_False by exact H. reflexivity. Qed.

Lemma erased_not_in it l : it ∉ (filter (λ n : iterator * ptr, n.1 ≠ it) l).*1.
Proof.
  intros H. apply list_elem_of_fmap in H as (n & -> & Hn).
  apply list_elem_of_filter in Hn as [Hn _]. apply Hn. reflexivity.
Qed.

Lemma filter_fst_sublist it l :
  forall x, x ∈ (filter (λ n : iterator * ptr, n.1 ≠ it) l).*1 -> x ∈ l.*1.
Proof.
  intros x H. apply list_elem_of_fmap in H as (n & -> & Hn).
  apply list_elem_of_filter in Hn as [_ Hn].
  apply list_elem_of_fmap. exists n. auto.
Qed.

Lemma NoDup_filter_fst it l :
  NoDup l.*1 -> NoDup (filter (λ n : iterator * ptr, n.1 ≠ it) l).*1.
Proof.
  induction l as [|n l IH]; simpl; [constructor|].
  rewrite NoDup_cons. intros [Hn Hl]. rewrite filter_cons.
  destruct (decide (n.1 ≠ it)); [|apply IH; exact Hl].
  simpl. apply NoDup_cons. split; [|apply IH; exact Hl].
  intros H. apply Hn. eapply filter_fst_sublist. exact H.
Qed.

(** The destructor of a collector whose node is in the list. *)
Lemma destroy_ok c r :
  registry_ok r -> this_iter c ∈ (nodes r).*1 ->
  exists r',
    destroy c r = Ok r'
    /\ nodes r' = filter (λ n, n.1 ≠ this_iter c) (nodes r)
    /\ next_node r' = next_node r
    /\ registry_ok r'.
Proof.
  intros (Hne & Hnd & Hlt) Hin. unfold destroy, nodes in *.
  destruct (collectors r) as [l|] eqn:El; simpl in *.
  - rewrite (erase_ok _ _ Hin). simpl.
    pose proof (NoDup_filter_fst (this_iter c) l Hnd) as Hnd'.
    pose proof (filter_fst_sublist (this_iter c) l) as Hsub.
    destruct (filter _ l) as [|n l'].
    + eexists. split; [reflexivity|]. simpl. split; [reflexivity|].
      split; [reflexivity|]. unfold registry_ok, nodes. simpl.
      split; [discriminate|]. split; [constructor|].
      intros it Hit. apply elem_of_nil in Hit. contradiction.
    + eexists. split; [reflexivity|]. simpl. split; [reflexivity|].
      split; [reflexivity|]. unfold registry_ok, nodes. simpl.
      split; [discriminate|]. split; [exact Hnd'|].
      intros it Hit. apply Hlt, Hsub. exact Hit.
  - apply elem_of_nil in Hin. contradiction.
Qed.

(** The destructor run once more, on the list it left. *)
Lemma destroy_again c r r' :
  nodes r' = filter (λ n, n.1 ≠ this_iter c) (nodes r) ->
  collectors r' ≠ Some [] ->
  (collectors r' = None /\ destroy c r' = Fault NullDeref)
  \/ (collectors r' <> None /\ destroy c r' = Fault InvalidIterator).
Proof.
  intros Hn Hne. unfold destroy, nodes in *.
  destruct (collectors r') as [l|]; simpl in *.
  - right. split; [discriminate|].
    rewrite erase_stale; [reflexivity|].
    rewrite Hn. apply erased_not_in.
  - left. auto.
Qed.

Lemma get_collectors_nodes r : get_collectors r = (nodes r).*2.
Proof. unfold get_collectors, nodes. destruct (collectors r); reflexivity. Qed.

Lemma NoDup_fst_unique l it p1 p2 :
  NoDup l.*1 -> (it, p1) ∈ l -> (it, p2) ∈ l -> p1 = p2.
Proof.
  induction l as [|n l IH]; simpl.
  - intros _ H. apply elem_of_nil in H. contradiction.
  - rewrite NoDup_cons, !elem_of_cons. intros [Hn Hl] [E1|H1] [E2|H2].
    + congruence.
    + exfalso. apply Hn. subst n. simpl.
      apply list_elem_of_fmap. exists (it, p2). auto.
    + exfalso. apply Hn. subst n. simpl.
      apply list_elem_of_fmap. exists (it, p1). auto.
    + apply IH; assumption.
Qed.

Lemma NoDup_snd_unique l it1 it2 p :
  NoDup l.*2 -> (it1, p) ∈ l -> (it2, p) ∈ l -> it1 = it2.
Proof.
  induction l as [|n l IH]; simpl.
  - intros _ H. apply elem_of_nil in H. contradiction.
  - rewrite NoDup_cons, !elem_of_cons. intros [Hn Hl] [E1|H1] [E2|H2].
    + congruence.
    + exfalso. apply Hn. subst n. simpl.
      apply list_elem_of_fmap. exists (it2, p). auto.
    + exfalso. apply Hn. subst n. simpl.
      apply list_elem_of_fmap. exists (it1, p). auto.
    + apply IH; assumption.
Qed.

Lemma fmap_snd_filter (P : iterator * ptr -> Prop) (Q : ptr -> Prop)
    `{!forall n, Decision (P n)} `{!forall q, Decision (Q q)} l :
  (forall n, n ∈ l -> P n <-> Q n.2) ->
  (filter P l).*2 = filter Q l.*2.
Proof.
  induction l as [|n l IH]; intros Hiff; [reflexivity|].
  simpl. rewrite !filter_cons.
  assert (Hn : P n <-> Q n.2) by (apply Hiff; left).
  assert (Hl : (filter P l).*2 = filter Q l.*2)
    by (apply IH; intros m Hm; apply Hiff; right; exact Hm).
  destruct (decide (P n)), (decide (Q n.2)); simpl; try tauto.
  f_equal. exact Hl.
Qed.

(** In a list without two nodes of one identity or of one collector,
    erasing the node of a collector removes that collector and no other. *)
Lemma erase_removes_collector l it p :
  NoDup l.*1 -> NoDup l.*2 -> (it, p) ∈ l ->
  (filter (λ n, n.1 ≠ it) l).*2 = filter (λ q, q ≠ p) l.*2.
Proof.
  intros H1 H2 Hin. apply fmap_snd_filter. intros [it' p'] Hn. simpl. split.
  - intros Hne ->. apply Hne. eapply NoDup_snd_unique; eassumption.
  - intros Hne ->. apply Hne. eapply NoDup_fst_unique; eassumption.
Qed.

Lemma step_new this k w live :
  world_ok w live -> this ∉ live ->
  exists w', step (New this k) w = Ok w' /\ world_ok w' (live ++ [this]).
Proof.
  intros (Hr & Hg & Hnd & Hdom & Hit) Hfresh.
  unfold ProfilingCollector.step. rewrite create_ok. simpl.
  eexists. split; [reflexivity|].
  unfold world_ok. simpl.
  split; [apply create_registry_ok; exact Hr|].
  split; [|split; [|split]].
  - rewrite get_collectors_nodes in Hg. unfold get_collectors. simpl.
    rewrite fmap_app, Hg. reflexivity.
  - apply NoDup_app. split; [exact Hnd|]. split; [|apply NoDup_singleton].
    intros q Hq Hq'. apply list_elem_of_singleton in Hq' as ->. contradiction.
  - intros q. rewrite elem_of_app, list_elem_of_singleton, lookup_insert_is_Some, Hdom.
    destruct (decide (this = q)); intuition congruence.
  - intros q c.
    change (nodes (mkRegistry (Some (nodes (reg w) ++ [(next_node (reg w), this)]))
                     (S (next_node (reg w)))))
      with (nodes (reg w) ++ [(next_node (reg w), this)]).
    rewrite elem_of_app, list_elem_of_singleton.
    destruct (decide (this = q)) as [->|Hne].
    + rewrite lookup_insert_eq. intros [= <-]. right. reflexivity.
    + rewrite lookup_insert_ne by exact Hne. intros Hq. left. apply Hit. exact Hq.
Qed.

Lemma step_delete this w live :
  world_ok w live -> this ∈ live ->
  exists w',
    step (Delete this) w = Ok w' /\ world_ok w' (filter (λ p, p ≠ this) live).
Proof.
  intros (Hr & Hg & Hnd & Hdom & Hit) Hin.
  unfold ProfilingCollector.step.
  destruct (proj1 (Hdom this) Hin) as [c Hc]. rewrite Hc.
  pose proof (Hit _ _ Hc) as Hnode.
  assert (Hid : this_iter c ∈ (nodes (reg w)).*1).
  { apply list_elem_of_fmap. exists (this_iter c, this). auto. }
  destruct (destroy_ok c (reg w) Hr Hid) as (r' & -> & Hn' & Hnext & Hr').
  simpl. eexists. split; [reflexivity|].
  unfold world_ok. simpl.
  rewrite get_collectors_nodes in Hg.
  destruct Hr as (_ & Hnd1 & _).
  split; [exact Hr'|]. split; [|split; [|split]].
  - rewrite get_collectors_nodes, Hn', <- Hg.
    apply erase_removes_collector; [exact Hnd1|rewrite Hg; exact Hnd|exact Hnode].
  - apply NoDup_filter. exact Hnd.
  - intros q. rewrite list_elem_of_filter, lookup_delete_is_Some, Hdom.
    intuition congruence.
  - intros q c'. rewrite Hn'.
    destruct (decide (this = q)) as [->|Hne].
    + rewrite lookup_delete_eq. discriminate.
    + rewrite lookup_delete_ne by exact Hne. intros Hq.
      apply list_elem_of_filter. split; [|apply Hit; exact Hq].
      simpl. intros E. apply Hne. symmetry.
      eapply NoDup_fst_unique; [exact Hnd1| |exact Hnode].
      rewrite <- E. apply Hit. exact Hq.
Qed.

Lemma boot_ok : world_ok boot [].
Proof.
  unfold world_ok, registry_ok, boot, no_collectors, nodes, get_collectors. simpl.
  split; [split; [discriminate|split; [constructor|]]|].
  - intros it H. apply elem_of_nil in H. contradiction.
  - split; [reflexivity|]. split; [constructor|]. split.
    + intros p. rewrite lookup_empty. split.
      * intros H. apply elem_of_nil in H. contradiction.
      * intros [x Hx]. discriminate Hx.
    + intros p c. rewrite lookup_empty. discriminate.
Qed.

(** A program that creates collectors at free addresses and destroys
    collectors alive runs without fault, and the list then holds the
    collectors alive in the order of their creation. *)
Lemma run_ok ops w live :
  world_ok w live -> well_formed ops live = true ->
  exists w', run ops w = Ok w' /\ world_ok w' (live_after ops live).
Proof.
  revert w live. induction ops as [|[this k|this] ops IH]; intros w live Hw Hwf.
  - exists w. auto.
  - simpl in Hwf. apply andb_true_iff in Hwf as [Hf Hwf].
    apply bool_decide_eq_true in Hf.
    destruct (step_new this k w live Hw Hf) as (w1 & Hs & Hw1).
    destruct (IH w1 _ Hw1 Hwf) as (w' & Hrun & Hw').
    exists w'. split; [|exact Hw'].
    change (run (New this k :: ops) w) with (w1 <- step (New this k) w ;; run ops w1).
    rewrite Hs. exact Hrun.
  - simpl in Hwf. apply andb_true_iff in Hwf as [Hf Hwf].
    apply bool_decide_eq_true in Hf.
    destruct (step_delete this w live Hw Hf) as (w1 & Hs & Hw1).
    destruct (IH w1 _ Hw1 Hwf) as (w' & Hrun & Hw').
    exists w'. split; [|exact Hw'].
    change (run (Delete this :: ops) w) with (w1 <- step (Delete this) w ;; run ops w1).
    rewrite Hs. exact Hrun.
Qed.

End RegistryFacts.

(** C8.  Every program that creates collectors (at addresses that hold
    none) and destroys collectors alive runs to the end, and
    get_collectors then returns the collectors alive in the order of their
    creation.  In particular, after three collectors are created it
    returns the three in that order, and after the middle one is destroyed
    it returns the other two in their order. *)
Theorem get_collectors_lists_live_in_creation_order (NUM_SLOTS : Z) :
  (forall ops,
      well_formed ops [] = true ->
      exists w,
        run NUM_SLOTS ops boot = Ok w
        /\ get_collectors (reg w) = live_after ops [])
  /\ (forall p1 p2 p3 k1 k2 k3,
      p1 <> p2 -> p1 <> p3 -> p2 <> p3 ->
      (exists w,
          run NUM_SLOTS [New p1 k1; New p2 k2; New p3 k3] boot = Ok w
          /\ get_collectors (reg w) = [p1; p2; p3])
      /\ (exists w,
          run NUM_SLOTS [New p1 k1; New p2 k2; New p3 k3; Delete p2] boot = Ok w
          /\ get_collectors (reg w) = [p1; p3])).
Proof.
  assert (Hgen : forall ops,
             well_formed ops [] = true ->
             exists w,
               run NUM_SLOTS ops boot = Ok w
               /\ get_collectors (reg w) = live_after ops []).
  { intros ops Hwf.
    destruct (run_ok NUM_SLOTS ops boot [] boot_ok Hwf) as (w & Hrun & Hw).
    exists w. split; [exact Hrun|]. apply Hw. }
  split; [exact Hgen|].
  intros p1 p2 p3 k1 k2 k3 H12 H13 H23.
  assert (Hwf : well_formed [New p1 k1; New p2 k2; New p3 k3; Delete p2] [] = true).
  { simpl. rewrite !andb_true_iff, !bool_decide_eq_true.
    repeat split; rewrite ?elem_of_cons, ?elem_of_nil; intuition congruence. }
  assert (Hkeep : filter (λ p, p ≠ p2) [p1; p2; p3] = [p1; p3]).
  { rewrite !filter_cons, filter_nil.
    rewrite (decide_True (P := p1 ≠ p2)) by exact H12.
    rewrite (decide_False (P := p2 ≠ p2)) by (intros H; apply H; reflexivity).
    rewrite (decide_True (P := p3 ≠ p2)) by (intros E; apply H23; symmetry; exact E).
    reflexivity. }
  split.
  - destruct (Hgen [New p1 k1; New p2 k2; New p3 k3]) as (w & Hrun & Hw).
    { simpl in Hwf. rewrite !andb_true_iff in Hwf.
      simpl. rewrite !andb_true_iff. tauto. }
    exists w. split; [exact Hrun|]. rewrite Hw. reflexivity.
  - destruct (Hgen _ Hwf) as (w & Hrun & Hw).
    exists w. split; [exact Hrun|]. rewrite Hw. simpl. exact Hkeep.
Qed.

Lemma get_collectors_lists_live_in_creation_order_witness :
  well_formed [New 10%nat "a"; New 20%nat "b"; New 30%nat "c"; Delete 20%nat;
               New 20%nat "d"; Delete 10%nat] [] = true
  /\ exists w,
      run 5 [New 10%nat "a"; New 20%nat "b"; New 30%nat "c"; Delete 20%nat;
             New 20%nat "d"; Delete 10%nat] boot = Ok w
      /\ get_collectors (reg w)
         = live_after [New 10%nat "a"; New 20%nat "b"; New 30%nat "c"; Delete 20%nat;
                       New 20%nat "d"; Delete 10%nat] [].
Proof.
  split; [vm_compute; reflexivity|].
  apply (proj1 (get_collectors_lists_live_in_creation_order 5)).
  vm_compute. reflexivity.
Defined.

(** C9 (as stated, refuted).  The destructor has no guard.  Run again
    after the only collector was destroyed, it uses the list pointer that
    the first run set to NULL; run again for the first of two collectors,
    it erases through the iterator of a node that is no longer in the
    list.  Neither is a no-op. *)
Lemma second_destroy_faults :
  destroy_only_collector_twice = Fault NullDeref
  /\ destroy_first_collector_twice = Fault InvalidIterator.
Proof. split; vm_compute; reflexivity. Qed.

(** C9 (amended).  The destructor of a collector whose node is in the
    list returns: it removes that node and no other, and keeps the order
    of the rest.  The code does not make a second run for the same
    collector a no-op: on the list the first run left, it faults, on the
    NULL list pointer when the list was freed and on an iterator of no
    node otherwise. *)
Theorem destroy_once_is_safe (c : ProfilingCollector.t) (r : registry) :
  registry_ok r -> this_iter c ∈ (nodes r).*1 ->
  exists r',
    destroy c r = Ok r'
    /\ nodes r' = filter (λ n, n.1 ≠ this_iter c) (nodes r)
    /\ ((collectors r' = None /\ destroy c r' = Fault NullDeref)
        \/ (collectors r' <> None /\ destroy c r' = Fault InvalidIterator)).
Proof.
  intros Hr Hin.
  destruct (destroy_ok c r Hr Hin) as (r' & Hd & Hn & _ & Hr').
  exists r'. split; [exact Hd|]. split; [exact Hn|].
  apply (destroy_again c r r' Hn). apply Hr'.
Qed.

Lemma destroy_once_is_safe_witness :
  registry_ok (mkRegistry (Some [(0%nat, 10%nat); (1%nat, 20%nat)]) 2%nat)
  /\ (0%nat ∈ (nodes (mkRegistry (Some [(0%nat, 10%nat); (1%nat, 20%nat)]) 2%nat)).*1)
  /\ exists r',
      destroy (mk "first" 0 [] 0%nat)
              (mkRegistry (Some [(0%nat, 10%nat); (1%nat, 20%nat)]) 2%nat) = Ok r'.
Proof.
  assert (Hr : registry_ok (mkRegistry (Some [(0%nat, 10%nat); (1%nat, 20%nat)]) 2%nat)).
  { unfold registry_ok, nodes. simpl. split; [discriminate|]. split.
    - apply NoDup_cons. split; [|apply NoDup_singleton].
      rewrite list_elem_of_singleton. lia.
    - intros it Hit. apply elem_of_cons in Hit as [->|Hit]; [lia|].
      apply list_elem_of_singleton in Hit as ->. lia. }
  assert (Hin : 0%nat ∈ (nodes (mkRegistry (Some [(0%nat, 10%nat); (1%nat, 20%nat)])
                                   2%nat)).*1).
  { unfold nodes. simpl. left. }
  split; [exact Hr|]. split; [exact Hin|].
  destruct (destroy_once_is_safe (mk "first" 0 [] 0%nat) _ Hr Hin) as (r' & Hd & _).
  exists r'. exact Hd.
Defined.

(** * Further properties of profile.cpp *)

(** ** Stats *)

Lemma record_time_new bits d :
  0 < bits -> Stats.record_time bits d Stats.new = Stats.mk d d d 1.
Proof.
  intros Hbits. unfold Stats.record_time, Stats.new.
  cbn [Stats.num_samples Stats.min_time Stats.max_time Stats.total_time].
  rewrite Z.eqb_refl.
  cbn [Stats.num_samples Stats.min_time Stats.max_time Stats.total_time].
  change (0 + 1) with 1. rewrite (wrap_1 bits Hbits). reflexivity.
Qed.

(** X1.  Recording a sample is merging with the Stats of that one sample:
    for a Stats within its types that is all zero when empty,
    s.record_time(d) gives what s += t gives, t being an empty Stats after
    t.record_time(d). *)
Theorem Stats_record_is_add_of_one_sample (bits d : Z) (s : Stats.t) :
  0 < bits -> is_u64 d -> Stats.in_range bits s -> Stats.canonical s ->
  Stats.record_time bits d s
  = Stats.add bits s (Stats.record_time bits d Stats.new).
Proof.
  intros Hbits Hd. destruct s as [mn mx tot n].
  unfold Stats.in_range, is_u64. simpl. intros (? & ? & ? & ?) Hc.
  rewrite (record_time_new bits d Hbits).
  unfold Stats.record_time, Stats.add.
  cbn [Stats.num_samples Stats.min_time Stats.max_time Stats.total_time].
  change (0 <? 1) with true. cbv iota.
  destruct (Z.eqb_spec n 0) as [->|Hn].
  - apply canonical_fields in Hc as (-> & -> & ->).
    cbn [Stats.num_samples Stats.min_time Stats.max_time Stats.total_time orb].
    rewrite !Z.add_0_l, (u64_small d) by exact Hd. reflexivity.
  - cbn [Stats.num_samples Stats.min_time Stats.max_time Stats.total_time orb].
    reflexivity.
Qed.

Lemma Stats_record_is_add_of_one_sample_witness :
  0 < 32 /\ is_u64 7 /\ Stats.in_range 32 (Stats.mk 3 8 11 2)
  /\ Stats.canonical (Stats.mk 3 8 11 2)
  /\ Stats.record_time 32 7 (Stats.mk 3 8 11 2)
     = Stats.add 32 (Stats.mk 3 8 11 2) (Stats.record_time 32 7 Stats.new).
Proof.
  assert (H1 : 0 < 32) by lia.
  assert (H2 : is_u64 7) by (unfold is_u64; lia).
  assert (H3 : Stats.in_range 32 (Stats.mk 3 8 11 2))
    by (unfold Stats.in_range, is_u64; simpl; lia).
  assert (H4 : Stats.canonical (Stats.mk 3 8 11 2)) by (intros E; discriminate E).
  repeat (split; [assumption|]).
  exact (Stats_record_is_add_of_one_sample 32 7 _ H1 H2 H3 H4).
Defined.

(** X2.  Whatever a Stats holds, after record_time(d) the sample lies
    between min_time and max_time; and when the Stats was not empty,
    min_time has not grown and max_time has not shrunk.  No overflow of
    total_time or num_samples disturbs this. *)
Theorem Stats_record_keeps_sample_between_min_max (bits d : Z) (s : Stats.t) :
  (Stats.min_time (Stats.record_time bits d s) <= d
   <= Stats.max_time (Stats.record_time bits d s))
  /\ (Stats.num_samples s <> 0 ->
      Stats.min_time (Stats.record_time bits d s) <= Stats.min_time s
      /\ Stats.max_time s <= Stats.max_time (Stats.record_time bits d s)).
Proof.
  destruct s as [mn mx tot n]. unfold Stats.record_time. simpl.
  destruct (Z.eqb_spec n 0) as [->|Hn]; simpl.
  - split; [lia|]. intros H. contradiction.
  - destruct (Z.ltb_spec d mn), (Z.ltb_spec mx d); simpl; lia.
Qed.

(** X3.  n >= 1 samples of one duration d recorded into an empty Stats
    leave min_time = max_time = d, total_time = n * d and num_samples = n,
    so get_avg_time() is d, as long as n * d fits in 64 bits and n in the
    counter. *)
Theorem Stats_identical_samples (bits d : Z) (n : nat) :
  0 < bits -> is_u64 d -> (1 <= n)%nat ->
  Z.of_nat n * d < 2 ^ 64 -> Z.of_nat n < 2 ^ bits ->
  record_many bits n d Stats.new = Stats.mk d d (Z.of_nat n * d) (Z.of_nat n)
  /\ Stats.get_avg_time (record_many bits n d Stats.new) = d.
Proof.
  intros Hbits Hd Hn Ht Hc.
  assert (E : record_many bits n d Stats.new
              = Stats.mk d d (Z.of_nat n * d) (Z.of_nat n)).
  { unfold is_u64 in Hd.
    induction n as [|n IH]; [lia|].
    destruct (Nat.eq_dec n 0%nat) as [->|Hn0].
    - unfold record_many. simpl. rewrite (record_time_new bits d Hbits).
      f_equal. lia.
    - unfold record_many in *. simpl. rewrite IH by (lia || nia).
      unfold Stats.record_time. simpl.
      destruct (Z.eqb_spec (Z.of_nat n) 0); [lia|]. simpl.
      rewrite Z.ltb_irrefl.
      rewrite u64_small by (unfold is_u64; nia).
      rewrite wrap_small by lia.
      f_equal; lia. }
  split; [exact E|]. rewrite E. unfold Stats.get_avg_time. simpl.
  destruct (Z.ltb_spec 0 (Z.of_nat n)); [|lia].
  rewrite Z.mul_comm. apply Z.quot_mul. lia.
Qed.

Lemma Stats_identical_samples_witness :
  0 < 32 /\ is_u64 250 /\ (1 <= 4)%nat
  /\ Z.of_nat 4 * 250 < 2 ^ 64 /\ Z.of_nat 4 < 2 ^ 32
  /\ record_many 32 4 250 Stats.new = Stats.mk 250 250 (Z.of_nat 4 * 250) (Z.of_nat 4).
Proof.
  assert (H1 : 0 < 32) by lia.
  assert (H2 : is_u64 250) by (unfold is_u64; lia).
  assert (H3 : (1 <= 4)%nat) by lia.
  assert (H4 : Z.of_nat 4 * 250 < 2 ^ 64) by (simpl; lia).
  assert (H5 : Z.of_nat 4 < 2 ^ 32) by (simpl; lia).
  repeat (split; [assumption|]).
  exact (proj1 (Stats_identical_samples 32 250 4 H1 H2 H3 H4 H5)).
Defined.

(** The sample counts add up under operator+= while they fit. *)
Lemma foldl_add_num_samples bits l acc :
  Forall (λ s, 0 <= Stats.num_samples s) l ->
  0 <= Stats.num_samples acc ->
  Stats.num_samples acc + sum_samples l < 2 ^ bits ->
  Stats.num_samples (foldl (Stats.add bits) acc l)
  = Stats.num_samples acc + sum_samples l.
Proof.
  intros Hl. revert acc. induction Hl as [|s l Hs Hl IH]; intros acc Hacc Hsum.
  - simpl. lia.
  - simpl in *.
    assert (Hrest : 0 <= sum_samples l).
    { clear -Hl. induction Hl; simpl; lia. }
    assert (Hstep : Stats.num_samples (Stats.add bits acc s)
                    = Stats.num_samples acc + Stats.num_samples s).
    { unfold Stats.add. destruct (Z.ltb_spec 0 (Stats.num_samples s)); simpl.
      - apply wrap_small. lia.
      - lia. }
    rewrite IH; lia.
Qed.

(** ** The ring, further *)

Section CollectorMore.

Variables NUM_SLOTS SLOT_DURATION_MS bits : Z.
Variable NDEBUG : bool.

Local Abbreviation wf := (wf NUM_SLOTS).
Local Abbreviation time_bucket := (time_bucket SLOT_DURATION_MS).
Local Abbreviation advance_to := (advance_to NUM_SLOTS NDEBUG).
Local Abbreviation retained := (retained NUM_SLOTS).
Local Abbreviation record_time := (record_time NUM_SLOTS SLOT_DURATION_MS bits NDEBUG).
Local Abbreviation accumulate_stats := (accumulate_stats NUM_SLOTS SLOT_DURATION_MS bits).

Implicit Types (c : t) (sl : list Stats.t).

(** Moving the ring on in two steps is moving it on in one. *)
Lemma advance_to_in_two_steps c b1 b2 c1 :
  wf c -> is_u64 b1 -> is_u64 b2 ->
  head_time_bucket c <= b1 <= b2 ->
  advance_to b1 c = Ok c1 ->
  advance_to b2 c1 = advance_to b2 c.
Proof.
  intros Hc Hb1 Hb2 [Hh1 H12] Hadv.
  destruct (Z.eq_dec (head_time_bucket c) b1) as [E1|N1].
  { subst b1. unfold ProfilingCollector.advance_to in Hadv.
    rewrite Z.eqb_refl in Hadv. injection Hadv as <-. reflexivity. }
  destruct (advance_to_later NUM_SLOTS NDEBUG b1 c Hc) as (sl1 & Hadv1 & Hl1 & Hj1).
  { unfold is_u64 in Hb1. lia. }
  rewrite Hadv1 in Hadv. injection Hadv as <-.
  destruct (Z.eq_dec b1 b2) as [E2|N2].
  { subst b2. rewrite Hadv1. unfold ProfilingCollector.advance_to. simpl.
    rewrite Z.eqb_refl. reflexivity. }
  assert (Hc1 : wf (mk (key c) b1 sl1 (this_iter c))).
  { destruct Hc as [Hlen _]. split; simpl; [lia|exact Hb1]. }
  destruct (advance_to_later NUM_SLOTS NDEBUG b2 _ Hc1) as (sl12 & -> & Hl12 & Hj12).
  { simpl. unfold is_u64 in Hb2. lia. }
  destruct (advance_to_later NUM_SLOTS NDEBUG b2 c Hc) as (sl2 & -> & Hl2 & Hj2).
  { unfold is_u64 in Hb2. lia. }
  simpl in *. do 2 f_equal. apply list_eq. intros j.
  destruct (decide (j < length (slots c))%nat) as [Hj|Hj].
  - rewrite Hj12, Hj2 by lia.
    repeat case_decide; try lia; try reflexivity.
    + rewrite Hj1 by lia. case_decide; [reflexivity|lia].
    + rewrite Hj1 by lia. case_decide; [lia|]. f_equal. lia.
  - rewrite !lookup_ge_None_2 by lia. reflexivity.
Qed.

(** X4.  Moving the ring on composes: after the ring has moved on to a
    bucket b1, moving it on to a later bucket b2 leaves the collector
    that moving it from the start to b2 leaves. *)
Theorem advance_to_composes c b1 b2 c1 :
  wf c -> is_u64 b1 -> is_u64 b2 ->
  head_time_bucket c <= b1 <= b2 ->
  advance_to b1 c = Ok c1 ->
  advance_to b2 c1 = advance_to b2 c
  /\ exists c2, advance_to b2 c = Ok c2.
Proof.
  intros Hc Hb1 Hb2 H12 Hadv. split.
  - exact (advance_to_in_two_steps c b1 b2 c1 Hc Hb1 Hb2 H12 Hadv).
  - destruct (advance_to_total NUM_SLOTS NDEBUG b2 c Hc Hb2 ltac:(lia))
      as (c2 & H2 & _).
    exists c2. exact H2.
Qed.

(** X5.  A sample that record_time drops leaves no trace: whatever is
    recorded afterwards, at a clock that has not gone back, gives the
    collector it would have given without the dropped call. *)
Theorem dropped_sample_leaves_no_trace c now1 b1 d1 now2 :
  build_ok NUM_SLOTS SLOT_DURATION_MS -> wf c ->
  is_u64 now1 -> is_u64 now2 -> is_u64 b1 ->
  head_time_bucket c <= time_bucket now1 -> now1 <= now2 ->
  ~ (time_bucket now1 - NUM_SLOTS + 1 <= time_bucket b1 <= time_bucket now1) ->
  exists c1,
    record_time now1 b1 d1 c = Ok c1
    /\ forall b2 d2, record_time now2 b2 d2 c1 = record_time now2 b2 d2 c.
Proof.
  intros Hb Hc Hn1 Hn2 Hb1 Hhead Hle Hout.
  pose proof Hb as ((HN0 & HN1) & HD & _).
  pose proof (time_bucket_u64 _ _ HD Hn1) as Hu1.
  pose proof (time_bucket_u64 _ _ HD Hn2) as Hu2.
  destruct (advance_to_total NUM_SLOTS NDEBUG _ c Hc Hu1 Hhead) as (cA & HA & HcA & HhA).
  destruct (record_time_after_advance NUM_SLOTS SLOT_DURATION_MS bits NDEBUG
              now1 b1 d1 c cA HD Hb1 HA HcA) as (c1 & H1 & _ & _ & Hno & _).
  destruct (bucket_plus_slots_small NUM_SLOTS SLOT_DURATION_MS b1 Hb Hb1) as [H0 Hs].
  assert (Hg : retained (head_time_bucket cA) (time_bucket b1) = false).
  { destruct (retained _ _) eqn:Hg; [|reflexivity].
    apply retained_spec in Hg; [|lia|lia|lia]. rewrite HhA in Hg. contradiction. }
  rewrite (Hno Hg) in H1.
  exists cA. split; [exact H1|].
  intros b2 d2. unfold ProfilingCollector.record_time.
  rewrite (advance_to_in_two_steps c (time_bucket now1) (time_bucket now2) cA
             Hc Hu1 Hu2); [reflexivity| |exact HA].
  split; [exact Hhead|]. apply time_bucket_mono; assumption.
Qed.

(** X6.  A call of record_time that returns keeps the collector well
    formed, with its key and its place in the list, and leaves the head at
    the bucket of the clock; in a build with assert() the head has not gone
    back. *)
Theorem record_time_keeps_collector c now begin_time d c2 :
  0 < SLOT_DURATION_MS -> wf c -> is_u64 now ->
  record_time now begin_time d c = Ok c2 ->
  wf c2
  /\ head_time_bucket c2 = time_bucket now
  /\ key c2 = key c /\ this_iter c2 = this_iter c
  /\ (NDEBUG = false -> head_time_bucket c <= head_time_bucket c2).
Proof.
  intros HD Hc Hnow Hrec.
  destruct (record_time_wf _ _ _ _ _ _ _ _ _ HD Hc Hnow Hrec) as [Hc2 Hh2].
  split; [exact Hc2|]. split; [exact Hh2|].
  unfold ProfilingCollector.record_time in Hrec.
  destruct (advance_to_shape NUM_SLOTS NDEBUG _ c Hc (time_bucket_u64 _ _ HD Hnow))
    as [(E & _)|(c1 & E & _ & Hh1 & Hk & Hi)]; rewrite E in Hrec; simpl in Hrec;
    [discriminate|].
  assert (Hsame : key c2 = key c1 /\ this_iter c2 = this_iter c1).
  { destruct (ProfilingCollector.retained _ _ _).
    - destruct (slot_update _ _ _); simpl in Hrec; [|discriminate].
      injection Hrec as <-. auto.
    - injection Hrec as <-. auto. }
  destruct Hsame as [-> ->]. split; [exact Hk|]. split; [exact Hi|].
  intros Hdbg. rewrite Hh2.
  unfold ProfilingCollector.advance_to, assert in E. rewrite Hdbg in E.
  destruct (Z.eqb_spec (time_bucket now) (head_time_bucket c)); [lia|].
  destruct (Z.ltb_spec (head_time_bucket c) (time_bucket now)); [lia|].
  simpl in E. discriminate.
Qed.


(** X8.  accumulate_stats counts whole slots only, and at most the
    NUM_SLOTS - 1 slots behind the current one: the part of the window
    below a multiple of SLOT_DURATION_MS is ignored, and every window of
    (NUM_SLOTS - 1) * SLOT_DURATION_MS or more gives the same result. *)
Theorem accumulate_stats_window_steps c w :
  0 < SLOT_DURATION_MS -> 0 <= w ->
  accumulate_stats w c = accumulate_stats (w - w mod SLOT_DURATION_MS) c
  /\ ((NUM_SLOTS - 1) * SLOT_DURATION_MS <= w ->
      accumulate_stats w c
      = accumulate_stats ((NUM_SLOTS - 1) * SLOT_DURATION_MS) c).
Proof.
  intros HD Hw. unfold ProfilingCollector.accumulate_stats. split.
  - replace ((w - w mod SLOT_DURATION_MS) / SLOT_DURATION_MS)
      with (w / SLOT_DURATION_MS); [reflexivity|].
    pose proof (Z.div_mod w SLOT_DURATION_MS ltac:(lia)) as E.
    replace (w - w mod SLOT_DURATION_MS)
      with ((w / SLOT_DURATION_MS) * SLOT_DURATION_MS) by lia.
    rewrite Z.div_mul by lia. reflexivity.
  - intros Hbig.
    rewrite Z.div_mul by lia.
    assert (NUM_SLOTS - 1 <= w / SLOT_DURATION_MS)
      by (apply Z.div_le_lower_bound; lia).
    replace (Z.min (1 + w / SLOT_DURATION_MS) NUM_SLOTS) with NUM_SLOTS by lia.
    replace (Z.min (1 + (NUM_SLOTS - 1)) NUM_SLOTS) with NUM_SLOTS by lia.
    reflexivity.
Qed.

(** X9.  The num_samples that accumulate_stats returns is the number of
    samples in the slots of the window, as long as that number fits in
    the counter. *)
Theorem accumulate_stats_counts_window c w :
  build_ok NUM_SLOTS SLOT_DURATION_MS -> wf c -> 0 <= w ->
  Forall (λ s, 0 <= Stats.num_samples s) (slots c) ->
  sum_samples (window_slots NUM_SLOTS SLOT_DURATION_MS w (slots c)) < 2 ^ bits ->
  exists r,
    accumulate_stats w c = Ok r
    /\ Stats.num_samples r
       = sum_samples (window_slots NUM_SLOTS SLOT_DURATION_MS w (slots c)).
Proof.
  intros ((HN0 & _) & HD & _) Hc Hw Hpos Hsum.
  rewrite (accumulate_stats_ok NUM_SLOTS SLOT_DURATION_MS bits) by assumption.
  eexists. split; [reflexivity|].
  unfold merge_range.
  change (take _ (drop (Z.to_nat 1) (slots c)))
    with (window_slots NUM_SLOTS SLOT_DURATION_MS w (slots c)).
  rewrite foldl_add_num_samples; simpl; try lia.
  apply Forall_take, Forall_drop. exact Hpos.
Qed.

(** X10.  reset(begin_idx, end_idx) within the array empties the slots from
    begin_idx up to end_idx, and keeps the other slots, the head, the key
    and the place in the list; it checks no bound: with end_idx past the
    array it runs off its end. *)
Theorem reset_empties_range c b e :
  wf c -> 0 <= b ->
  (b <= e <= NUM_SLOTS ->
   exists c',
     reset b e c = Ok c'
     /\ head_time_bucket c' = head_time_bucket c
     /\ key c' = key c /\ this_iter c' = this_iter c
     /\ length (slots c') = length (slots c)
     /\ forall j : nat,
         slots c' !! j = if decide (b <= Z.of_nat j < e) then Some Stats.new
                         else slots c !! j)
  /\ (b < e -> NUM_SLOTS < e -> reset b e c = Fault OutOfBounds).
Proof.
  intros [Hlen _] Hb. split.
  - intros He. unfold reset.
    destruct (reset_slots_ok b e (slots c)) as (sl' & -> & Hl & Hj); [lia|lia|].
    simpl. eexists. split; [reflexivity|]. simpl. auto.
  - intros Hbe HN. unfold reset, reset_slots.
    assert (Hgen : forall n i sl,
               (0 < n)%nat -> 0 <= i -> Z.of_nat (length sl) < i + Z.of_nat n ->
               reset_loop n i sl = Fault OutOfBounds).
    { induction n as [|n IH]; intros i sl Hn Hi Hlt.
      - lia.
      - simpl. destruct (Z_lt_dec i (Z.of_nat (length sl))) as [Hin|Hout].
        + destruct (slot_update_ok i Stats.reset sl) as (s & _ & ->); [lia|].
          simpl. apply IH; [lia|lia|]. rewrite length_insert. lia.
        + unfold slot_update, slot_read.
          destruct (Z.leb_spec 0 i); [|lia].
          rewrite lookup_ge_None_2 by lia. reflexivity. }
    rewrite Hgen; [reflexivity|lia|lia|lia].
Qed.

(** X11.  After reset() every accumulate_stats call returns an empty
    result, whatever the window, and the head is where it was. *)
Theorem reset_then_accumulate_is_empty c w :
  build_ok NUM_SLOTS SLOT_DURATION_MS -> wf c -> 0 <= w ->
  exists c',
    reset 0 NUM_SLOTS c = Ok c'
    /\ head_time_bucket c' = head_time_bucket c
    /\ accumulate_stats w c' = Ok Stats.new.
Proof.
  intros Hb Hc Hw. pose proof Hb as ((HN0 & _) & HD & _).
  pose proof Hc as [Hlen Hh]. unfold reset.
  destruct (reset_slots_ok 0 NUM_SLOTS (slots c)) as (sl' & -> & Hl & Hj); [lia|lia|].
  simpl. eexists. split; [reflexivity|]. split; [reflexivity|].
  rewrite (accumulate_stats_ok NUM_SLOTS SLOT_DURATION_MS bits);
    try assumption; [|split; simpl; [lia|exact Hh]].
  unfold merge_range. simpl. f_equal. apply foldl_add_empty.
  apply Forall_take, Forall_drop, Forall_lookup.
  intros j s Hs. pose proof (lookup_lt_Some _ _ _ Hs).
  rewrite Hj in Hs. case_decide; [congruence|lia].
Qed.

End CollectorMore.

(** ** The list of collectors, further *)

Section RegistryMore.

Variable NUM_SLOTS : Z.

Local Abbreviation create := (create NUM_SLOTS).
Local Abbreviation run := (run NUM_SLOTS).
Local Abbreviation wf := (wf NUM_SLOTS).
Local Abbreviation cleared := (Collectors.cleared NUM_SLOTS).
Local Abbreviation reset_each := (Collectors.reset_each NUM_SLOTS).
Local Abbreviation reset_collectors := (Collectors.reset_collectors NUM_SLOTS).

Lemma filter_older_ids (l : list (iterator * ptr)) (it : iterator) :
  (forall x, x ∈ l.*1 -> (x < it)%nat) ->
  filter (λ n, n.1 ≠ it) l = l.
Proof.
  induction l as [|n l IH]; intros H; [reflexivity|].
  rewrite filter_cons.
  assert (Hn : n.1 ≠ it).
  { assert (n.1 < it)%nat by (apply H; simpl; left). lia. }
  rewrite decide_True by exact Hn. f_equal. apply IH.
  intros x Hx. apply H. simpl. right. exact Hx.
Qed.

(** X12.  Creating a collector and destroying it at once leaves the list
    of collectors as it was: the same collectors in the same order, and
    the list pointer NULL again if it was NULL. *)
Theorem create_then_destroy_restores_list this k r :
  registry_ok r ->
  exists c r1 r2,
    create this k r = Ok (c, r1)
    /\ get_collectors r1 = get_collectors r ++ [this]
    /\ destroy c r1 = Ok r2
    /\ collectors r2 = collectors r
    /\ get_collectors r2 = get_collectors r.
Proof.
  intros Hr. rewrite create_ok.
  pose proof (create_registry_ok this r Hr) as Hr1.
  set (r1 := mkRegistry (Some (nodes r ++ [(next_node r, this)])) (S (next_node r))) in *.
  set (c := mk k 0 (replicate (Z.to_nat NUM_SLOTS) Stats.new) (next_node r)).
  assert (Hn1 : nodes r1 = nodes r ++ [(next_node r, this)]) by reflexivity.
  assert (Hin : this_iter c ∈ (nodes r1).*1).
  { rewrite Hn1, fmap_app. apply elem_of_app. right. simpl. left. }
  destruct (destroy_ok c r1 Hr1 Hin) as (r2 & Hd & Hn2 & _ & Hr2).
  assert (Hnodes : nodes r2 = nodes r).
  { rewrite Hn2, Hn1, filter_app. simpl.
    rewrite filter_older_ids by apply Hr.
    rewrite filter_cons, filter_nil, decide_False; [apply app_nil_r|].
    simpl. intros H. apply H. reflexivity. }
  assert (Hcol : collectors r2 = collectors r).
  { destruct Hr as (Hne & _), Hr2 as (Hne2 & _). unfold nodes in Hnodes.
    destruct (collectors r2) as [[|n2 l2]|], (collectors r) as [[|n l]|];
      simpl in Hnodes; try congruence; try discriminate. }
  exists c, r1, r2. split; [reflexivity|]. split.
  { rewrite !get_collectors_nodes, Hn1, fmap_app. reflexivity. }
  split; [exact Hd|]. split; [exact Hcol|].
  rewrite !get_collectors_nodes, Hnodes. reflexivity.
Qed.

(** X13.  After any program that creates collectors at free addresses and
    destroys collectors alive, the list pointer is NULL exactly when no
    collector is alive, no collector is listed twice, the collectors
    listed are the objects alive, and the destructor of each of them
    returns. *)
Theorem list_pointer_null_iff_no_collector ops :
  well_formed ops [] = true ->
  exists w,
    run ops boot = Ok w
    /\ (collectors (reg w) = None <-> get_collectors (reg w) = [])
    /\ NoDup (get_collectors (reg w))
    /\ (forall p, p ∈ get_collectors (reg w) <-> is_Some (heap w !! p))
    /\ (forall p c, heap w !! p = Some c -> exists r', destroy c (reg w) = Ok r').
Proof.
  intros Hwf.
  destruct (run_ok NUM_SLOTS ops boot [] boot_ok Hwf)
    as (w & Hrun & Hr & Hg & Hnd & Hdom & Hit).
  exists w. split; [exact Hrun|]. rewrite Hg.
  split; [|split; [exact Hnd|split; [exact Hdom|]]].
  - rewrite <- Hg. unfold get_collectors. destruct Hr as (Hne & _).
    destruct (collectors (reg w)) as [[|n l]|]; simpl.
    + contradiction.
    + split; discriminate.
    + split; reflexivity.
  - intros p c Hc.
    destruct (destroy_ok c (reg w) Hr) as (r' & Hd & _).
    { apply list_elem_of_fmap. exists (this_iter c, p). split; [reflexivity|].
      apply Hit. exact Hc. }
    exists r'. exact Hd.
Qed.

Lemma reset_full c : wf c -> reset 0 NUM_SLOTS c = Ok (cleared c).
Proof.
  intros [Hlen _]. unfold reset, Collectors.cleared.
  destruct (reset_slots_ok 0 NUM_SLOTS (slots c)) as (sl' & -> & Hl & Hj); [lia|lia|].
  simpl. do 2 f_equal. apply list_eq. intros j. rewrite Hj.
  case_decide.
  - symmetry. apply lookup_replicate_2. lia.
  - rewrite !lookup_ge_None_2; [reflexivity|rewrite length_replicate; lia|lia].
Qed.

Lemma cleared_wf c : wf c -> wf (cleared c).
Proof.
  intros [Hlen Hh]. split; simpl; [rewrite length_replicate; lia|exact Hh].
Qed.

Lemma cleared_twice c : cleared (cleared c) = cleared c.
Proof. reflexivity. Qed.

(** The loop of reset_collectors over collectors that are alive. *)
Lemma reset_each_ok (l : list (iterator * ptr)) (h : gmap ptr t) :
  (forall n, n ∈ l -> is_Some (h !! n.2)) ->
  (forall p c, h !! p = Some c -> wf c) ->
  exists h',
    reset_each l h = Done h'
    /\ forall p, h' !! p = if decide (p ∈ l.*2) then cleared <$> h !! p
                           else h !! p.
Proof.
  revert h. induction l as [|n l IH]; intros h Hin Hwf.
  - exists h. split; [reflexivity|]. intros p.
    rewrite decide_False; [reflexivity|]. simpl. apply not_elem_of_nil.
  - destruct (Hin n ltac:(left)) as [c Hc].
    simpl. unfold deref. rewrite Hc. simpl.
    rewrite (reset_full c (Hwf _ _ Hc)). simpl.
    destruct (IH (<[n.2 := cleared c]> h)) as (h' & -> & Hh').
    { intros n' Hn'. apply lookup_insert_is_Some'. right. apply Hin. right. exact Hn'. }
    { intros p c'. destruct (decide (n.2 = p)) as [<-|Hne].
      - rewrite lookup_insert_eq. intros [= <-]. apply cleared_wf. eapply Hwf. exact Hc.
      - rewrite lookup_insert_ne by exact Hne. apply Hwf. }
    exists h'. split; [reflexivity|]. intros p. rewrite Hh'.
    destruct (decide (n.2 = p)) as [<-|Hne].
    + rewrite lookup_insert_eq, Hc.
      repeat case_decide; simpl; try reflexivity; exfalso;
        rewrite elem_of_cons in *; tauto.
    + rewrite lookup_insert_ne by exact Hne.
      repeat case_decide; try reflexivity; exfalso;
        rewrite elem_of_cons in *; intuition congruence.
Qed.

(** X14.  reset_collectors() returns and leaves the list as it is; every
    collector alive has every slot empty and its key, its head and its
    place in the list as before, and every collector alive stays well
    formed.  When the list pointer is NULL it does nothing. *)
Theorem reset_collectors_clears_every_collector w live :
  world_ok w live -> Collectors.heap_wf NUM_SLOTS w ->
  (exists w',
      reset_collectors w = Done w'
      /\ reg w' = reg w
      /\ (forall p, heap w' !! p = cleared <$> heap w !! p)
      /\ Collectors.heap_wf NUM_SLOTS w')
  /\ (collectors (reg w) = None -> reset_collectors w = Done w).
Proof.
  intros (Hr & Hg & Hnd & Hdom & Hit) Hwf. split.
  - unfold Collectors.reset_collectors.
    destruct (collectors (reg w)) as [l|] eqn:El.
    + destruct (reset_each_ok l (heap w)) as (h' & -> & Hh').
      { intros n Hn. apply Hdom. rewrite <- Hg. unfold get_collectors. rewrite El.
        apply list_elem_of_fmap. exists n. auto. }
      { exact Hwf. }
      simpl. eexists. split; [reflexivity|]. simpl. split; [reflexivity|].
      assert (Hall : forall p, h' !! p = cleared <$> heap w !! p).
      { intros p. rewrite Hh'. case_decide as Hp; [reflexivity|].
        destruct (heap w !! p) as [c|] eqn:Hc; [|reflexivity].
        exfalso. apply Hp.
        assert (p ∈ live) by (apply Hdom; eauto).
        rewrite <- Hg in H. unfold get_collectors in H. rewrite El in H. exact H. }
      split; [exact Hall|].
      intros p c'. rewrite Hall.
      destruct (heap w !! p) as [c|] eqn:Hc; simpl; [|discriminate].
      intros [= <-]. apply cleared_wf. eapply Hwf. exact Hc.
    + exists w. split; [reflexivity|]. split; [reflexivity|]. split; [|exact Hwf].
      intros p. destruct (heap w !! p) as [c|] eqn:Hc; [|reflexivity].
      exfalso. assert (Hp : p ∈ live) by (apply Hdom; eauto).
      rewrite <- Hg in Hp. unfold get_collectors in Hp. rewrite El in Hp.
      apply elem_of_nil in Hp. exact Hp.
  - intros El. unfold Collectors.reset_collectors. rewrite El. reflexivity.
Qed.

End RegistryMore.

(** ** AutoBlockProfiler *)

Section BlockFacts.

Variables NUM_SLOTS SLOT_DURATION_MS bits : Z.
Variable NDEBUG : bool.

Local Abbreviation wf := (wf NUM_SLOTS).
Local Abbreviation time_bucket := (time_bucket SLOT_DURATION_MS).
Local Abbreviation advance_to := (advance_to NUM_SLOTS NDEBUG).
Local Abbreviation record_time := (record_time NUM_SLOTS SLOT_DURATION_MS bits NDEBUG).
Local Abbreviation block_end :=
  (AutoBlockProfiler.destroy NUM_SLOTS SLOT_DURATION_MS bits NDEBUG).

(** X15.  A timed block is filed under the bucket it began in.  With clock
    readings that do not go back (start, end, then the reading inside
    record_time), the destructor of AutoBlockProfiler records the duration
    end - start in the slot that lies as many buckets behind the head as
    the block began before the clock's bucket; a block that began
    NUM_SLOTS buckets or more before it is not recorded at all.  When the
    clock has gone back between the two readings of the profiler, the
    duration recorded is 2^64 - (start - end). *)
Theorem block_is_filed_under_its_start (c : ProfilingCollector.t)
    (p : ptr) (start_us end_us now_us : Z) :
  build_ok NUM_SLOTS SLOT_DURATION_MS -> wf c ->
  is_u64 start_us -> is_u64 end_us -> is_u64 now_us ->
  head_time_bucket c <= time_bucket now_us ->
  (start_us <= end_us <= now_us ->
   exists c1 c2,
     advance_to (time_bucket now_us) c = Ok c1
     /\ block_end end_us now_us (AutoBlockProfiler.create p start_us) c = Ok c2
     /\ (time_bucket now_us - time_bucket start_us < NUM_SLOTS ->
         exists s,
           slots c1 !! Z.to_nat (time_bucket now_us - time_bucket start_us) = Some s
           /\ slots c2
              = <[Z.to_nat (time_bucket now_us - time_bucket start_us)
                  := Stats.record_time bits (end_us - start_us) s]> (slots c1))
     /\ (NUM_SLOTS <= time_bucket now_us - time_bucket start_us -> c2 = c1))
  /\ (end_us < start_us ->
      block_end end_us now_us (AutoBlockProfiler.create p start_us) c
      = record_time now_us start_us (2 ^ 64 - (start_us - end_us)) c).
Proof.
  intros Hb Hc Hs He Hn Hhead.
  pose proof Hb as ((HN0 & HN1) & HD & _).
  unfold AutoBlockProfiler.destroy, AutoBlockProfiler.create. simpl. split.
  - intros [Hse Hen].
    rewrite u64_small by (unfold is_u64 in *; lia).
    destruct (advance_to_total NUM_SLOTS NDEBUG _ c Hc
                (time_bucket_u64 _ _ HD Hn) Hhead) as (c1 & H1 & Hc1 & Hh1).
    destruct (record_time_after_advance NUM_SLOTS SLOT_DURATION_MS bits NDEBUG
                now_us start_us (end_us - start_us) c c1 HD Hs H1 Hc1)
      as (c2 & H2 & _ & _ & Hno & Hyes).
    exists c1, c2. split; [exact H1|]. split; [exact H2|].
    destruct (bucket_plus_slots_small NUM_SLOTS SLOT_DURATION_MS start_us Hb Hs)
      as [H0 Hsm].
    assert (Hmono : time_bucket start_us <= time_bucket now_us)
      by (apply time_bucket_mono; lia).
    rewrite Hh1 in Hno, Hyes. split.
    + intros Hnear. apply Hyes.
      apply retained_spec; lia.
    + intros Hfar. apply Hno.
      destruct (ProfilingCollector.retained _ _ _) eqn:Hg; [|reflexivity].
      apply retained_spec in Hg; lia.
  - intros Hback. f_equal. unfold u64, is_u64 in *.
    replace (end_us - start_us) with (2 ^ 64 - (start_us - end_us) + (-1) * 2 ^ 64)
      by lia.
    rewrite Z.mod_add by lia. apply Z.mod_small. lia.
Qed.

End BlockFacts.

Lemma block_is_filed_under_its_start_witness :
  build_ok 5 1000 /\ wf 5 example_collector
  /\ is_u64 7200000 /\ is_u64 9100000 /\ is_u64 9100001
  /\ head_time_bucket example_collector <= time_bucket 1000 9100001
  /\ (7200000 <= 9100000 <= 9100001 ->
      exists c1 c2,
        advance_to 5 false (time_bucket 1000 9100001) example_collector = Ok c1
        /\ AutoBlockProfiler.destroy 5 1000 32 false 9100000 9100001
             (AutoBlockProfiler.create 3%nat 7200000) example_collector = Ok c2).
Proof.
  assert (H1 : is_u64 7200000) by (unfold is_u64; lia).
  assert (H2 : is_u64 9100000) by (unfold is_u64; lia).
  assert (H3 : is_u64 9100001) by (unfold is_u64; lia).
  assert (H4 : head_time_bucket example_collector <= time_bucket 1000 9100001)
    by (vm_compute; discriminate).
  split; [exact build_5_1000|]. split; [exact example_collector_wf|].
  repeat (split; [assumption|]).
  intros Hle.
  destruct (proj1 (block_is_filed_under_its_start 5 1000 32 false example_collector
                     3%nat 7200000 9100000 9100001 build_5_1000
                     example_collector_wf H1 H2 H3 H4) Hle)
    as (c1 & c2 & Ha & Hb & _).
  exists c1, c2. auto.
Defined.

(** ** The table of the profiling window *)

Section TableFacts.

Import ProfilingDataViewModel.

Variables NUM_SLOTS SLOT_DURATION_MS bits : Z.

Local Abbreviation wf := (wf NUM_SLOTS).
Local Abbreviation accumulate_stats := (accumulate_stats NUM_SLOTS SLOT_DURATION_MS bits).
Local Abbreviation update_loop := (update_loop NUM_SLOTS SLOT_DURATION_MS bits).
Local Abbreviation update := (update NUM_SLOTS SLOT_DURATION_MS bits).

Implicit Types (m : ProfilingDataViewModel.t) (h : gmap ptr ProfilingCollector.t).

Lemma update_loop_cons p cs h m log c s :
  h !! p = Some c -> accumulate_stats (duration_ms m) c = Ok s ->
  update_loop (p :: cs) h m log
  = update_loop cs h (ProfilingDataViewModel.mk (duration_ms m) (<[p := s]> (stats m)))
      (log ++ [notice m p]).
Proof.
  intros Hc Hs. simpl. unfold deref. rewrite Hc. simpl. rewrite Hs. simpl.
  unfold notice. destruct (stats m !! p); reflexivity.
Qed.

(** The loop of update() over collectors alive, each listed once. *)
Lemma update_loop_ok cs h m log :
  build_ok NUM_SLOTS SLOT_DURATION_MS -> 0 <= duration_ms m ->
  NoDup cs ->
  (forall p, p ∈ cs -> exists c, h !! p = Some c /\ wf c) ->
  exists m',
    update_loop cs h m log = Done (m', log ++ (notice m <$> cs))
    /\ duration_ms m' = duration_ms m
    /\ (forall p, p ∈ cs ->
        exists c s,
          h !! p = Some c
          /\ accumulate_stats (duration_ms m) c = Ok s
          /\ stats m' !! p = Some s)
    /\ (forall p, p ∉ cs -> stats m' !! p = stats m !! p).
Proof.
  intros Hb Hd Hnd. pose proof Hb as ((HN0 & _) & HD & _).
  revert m log Hd. induction Hnd as [|p cs Hp Hnd IH]; intros m log Hd Hin.
  - exists m. simpl. rewrite app_nil_r. split; [reflexivity|].
    split; [reflexivity|]. split; [|reflexivity].
    intros p Hp. apply elem_of_nil in Hp. contradiction.
  - destruct (Hin p ltac:(left)) as (c & Hc & Hwf).
    pose proof (accumulate_stats_ok NUM_SLOTS SLOT_DURATION_MS bits
                  (duration_ms m) c HN0 HD Hwf Hd) as Hacc.
    set (s := merge_range bits 1
                (Z.min (1 + duration_ms m / SLOT_DURATION_MS) NUM_SLOTS) (slots c)) in *.
    set (m1 := ProfilingDataViewModel.mk (duration_ms m) (<[p := s]> (stats m))).
    destruct (IH m1 (log ++ [notice m p]) Hd) as (m' & Hrun & Hdur & Hlive & Hrest).
    { intros q Hq. apply Hin. right. exact Hq. }
    assert (Hsame : notice m1 <$> cs = notice m <$> cs).
    { apply list_fmap_ext. intros i q Hq. unfold notice, m1. simpl.
      rewrite lookup_insert_ne; [reflexivity|].
      intros ->. apply Hp. eapply list_elem_of_lookup_2. exact Hq. }
    exists m'. split.
    { rewrite (update_loop_cons p cs h m log c s Hc Hacc). fold m1.
      rewrite Hrun, Hsame, fmap_cons, <- app_assoc. reflexivity. }
    split; [exact Hdur|]. split.
    + intros q Hq. apply elem_of_cons in Hq as [->|Hq].
      * exists c, s. split; [exact Hc|]. split; [exact Hacc|].
        rewrite (Hrest p Hp). unfold m1. simpl. apply lookup_insert_eq.
      * apply Hlive. exact Hq.
    + intros q Hq. rewrite not_elem_of_cons in Hq. destruct Hq as [Hne Hq].
      rewrite (Hrest q Hq). unfold m1. simpl.
      apply lookup_insert_ne. congruence.
Qed.

(** update() over the collectors alive. *)
Lemma update_ok (w : world) (live : list ptr) m :
  build_ok NUM_SLOTS SLOT_DURATION_MS -> 0 <= duration_ms m ->
  world_ok w live -> Collectors.heap_wf NUM_SLOTS w ->
  exists m',
    update w m = Done (m', notice m <$> live)
    /\ duration_ms m' = duration_ms m
    /\ (forall p, p ∈ live ->
        exists c s,
          heap w !! p = Some c
          /\ accumulate_stats (duration_ms m) c = Ok s
          /\ stats m' !! p = Some s)
    /\ (forall p, p ∉ live -> stats m' !! p = stats m !! p).
Proof.
  intros Hb Hd (Hr & Hg & Hnd & Hdom & Hit) Hwf.
  unfold ProfilingDataViewModel.update. rewrite Hg.
  destruct (update_loop_ok live (heap w) m [] Hb Hd Hnd) as (m' & Hrun & Hrest).
  { intros p Hp. destruct (proj1 (Hdom p) Hp) as [c Hc].
    exists c. split; [exact Hc|]. eapply Hwf. exact Hc. }
  exists m'. split; [exact Hrun|]. exact Hrest.
Qed.

(** X16.  update() returns and refreshes the table: every collector alive
    has a row that holds what its accumulate_stats(duration_ms) returns;
    no row is ever removed, and the row of a collector that is not alive
    keeps the Stats it had; the view is told once of each collector alive,
    in the order of the list, ItemAdded for a new row and ItemChanged for
    a row there was. *)
Theorem update_refreshes_rows (w : world) (live : list ptr) m :
  build_ok NUM_SLOTS SLOT_DURATION_MS -> 0 <= duration_ms m ->
  world_ok w live -> Collectors.heap_wf NUM_SLOTS w ->
  exists m',
    update w m = Done (m', notice m <$> live)
    /\ duration_ms m' = duration_ms m
    /\ (forall p, p ∈ live ->
        exists c s,
          heap w !! p = Some c
          /\ accumulate_stats (duration_ms m) c = Ok s
          /\ stats m' !! p = Some s)
    /\ (forall p, p ∉ live -> stats m' !! p = stats m !! p).
Proof. apply update_ok. Qed.

(** X17.  A second update() right after the first changes no row and adds
    none: it tells the view ItemChanged for each collector alive and
    leaves the table as it is. *)
Theorem update_twice (w : world) (live : list ptr) m m1 log1 :
  build_ok NUM_SLOTS SLOT_DURATION_MS -> 0 <= duration_ms m ->
  world_ok w live -> Collectors.heap_wf NUM_SLOTS w ->
  update w m = Done (m1, log1) ->
  update w m1 = Done (m1, ItemChanged <$> live).
Proof.
  intros Hb Hd Hw Hwf H1.
  destruct (update_ok w live m Hb Hd Hw Hwf)
    as (m1' & E1 & Hdur1 & Hlive1 & Hrest1).
  rewrite E1 in H1. injection H1 as <- _.
  destruct (update_ok w live m1' Hb ltac:(lia) Hw Hwf)
    as (m2 & E2 & Hdur2 & Hlive2 & Hrest2).
  rewrite E2. f_equal. f_equal.
  - destruct m2 as [d2 st2], m1' as [d1 st1]. simpl in *. f_equal; [exact Hdur2|].
    apply map_eq. intros p.
    destruct (decide (p ∈ live)) as [Hp|Hp].
    + destruct (Hlive1 p Hp) as (c & s & Hc & Hs & ->).
      destruct (Hlive2 p Hp) as (c' & s' & Hc' & Hs' & ->).
      rewrite Hdur1 in Hs'. congruence.
    + apply Hrest2. exact Hp.
  - apply list_fmap_ext. intros i p Hp. unfold notice.
    destruct (Hlive1 p (list_elem_of_lookup_2 _ _ _ Hp)) as (c & s & _ & _ & ->).
    reflexivity.
Qed.

End TableFacts.

Import ProfilingDataViewModel.

Lemma cmp_value_antisym {T : Type} (lt : T -> T -> bool) (a b : T) :
  (lt a b = true -> lt b a = false) ->
  cmp_value lt b a = - cmp_value lt a b
  /\ (cmp_value lt a b = -1 \/ cmp_value lt a b = 0 \/ cmp_value lt a b = 1).
Proof.
  intros H. unfold cmp_value.
  destruct (lt a b) eqn:Hab, (lt b a) eqn:Hba; simpl; auto.
  specialize (H eq_refl). discriminate H.
Qed.

Lemma Z_ltb_asym a b : (a <? b) = true -> (b <? a) = false.
Proof. intros H. apply Z.ltb_lt in H. apply Z.ltb_ge. lia. Qed.

Lemma String_ltb_asym a b : String.ltb a b = true -> String.ltb b a = false.
Proof.
  unfold String.ltb. rewrite (String.compare_antisym b a).
  destruct (String.compare a b); simpl; congruence.
Qed.

Ltac split_columns col :=
  unfold Compare, COLLECTOR_MODEL_COLUMN_NAME, COLLECTOR_MODEL_COLUMN_SAMPLES,
    COLLECTOR_MODEL_COLUMN_MIN, COLLECTOR_MODEL_COLUMN_MAX,
    COLLECTOR_MODEL_COLUMN_AVG;
  destruct (Z.eqb_spec col 0); [|
  destruct (Z.eqb_spec col 1); [|
  destruct (Z.eqb_spec col 2); [|
  destruct (Z.eqb_spec col 3); [|
  destruct (Z.eqb_spec col 4)]]]].

(** X18.  Compare is antisymmetric and answers -1, 0 or 1: if it returns z
    for two rows it returns -z for the rows exchanged; and it returns the
    same whatever [ascending] is. *)
Theorem Compare_is_antisymmetric (h : gmap ptr ProfilingCollector.t)
    (m : ProfilingDataViewModel.t) (item1 item2 : ptr) (column : Z)
    (ascending : bool) (z : Z) :
  Compare h m item1 item2 column ascending = Done z ->
  Compare h m item2 item1 column ascending = Done (- z)
  /\ (z = -1 \/ z = 0 \/ z = 1)
  /\ Compare h m item1 item2 column (negb ascending) = Done z.
Proof.
  intros H. split; [|split; [|exact H]]; revert H; split_columns column;
    unfold row, deref;
    destruct (stats m !! item1) as [s1|], (stats m !! item2) as [s2|];
    simpl; try discriminate;
    try (destruct (h !! item1) as [c1|], (h !! item2) as [c2|];
         simpl; try discriminate);
    intros [= <-];
    try (f_equal; apply cmp_value_antisym; apply Z_ltb_asym);
    try (f_equal; apply cmp_value_antisym; apply String_ltb_asym);
    try (apply cmp_value_antisym; apply Z_ltb_asym);
    try (apply cmp_value_antisym; apply String_ltb_asym).
Qed.

Lemma Compare_is_antisymmetric_witness :
  Compare ∅ (ProfilingDataViewModel.mk 5000
               (<[1%nat := Stats.mk 3 8 11 2]> (<[2%nat := Stats.mk 1 4 5 2]> ∅)))
          1%nat 2%nat COLLECTOR_MODEL_COLUMN_MIN true = Done 1
  /\ Compare ∅ (ProfilingDataViewModel.mk 5000
                  (<[1%nat := Stats.mk 3 8 11 2]> (<[2%nat := Stats.mk 1 4 5 2]> ∅)))
             2%nat 1%nat COLLECTOR_MODEL_COLUMN_MIN true = Done (- 1).
Proof.
  assert (H : Compare ∅ (ProfilingDataViewModel.mk 5000
               (<[1%nat := Stats.mk 3 8 11 2]> (<[2%nat := Stats.mk 1 4 5 2]> ∅)))
          1%nat 2%nat COLLECTOR_MODEL_COLUMN_MIN true = Done 1)
    by (vm_compute; reflexivity).
  split; [exact H|].
  exact (proj1 (Compare_is_antisymmetric _ _ _ _ _ _ _ H)).
Defined.

(** X19.  What Compare ends in, for two rows of the table: on the columns
    of the samples, the minimum, the maximum and the average it returns;
    on the column of the names it returns when both collectors are alive,
    and reads the key of a collector that no longer exists when one of
    them has been destroyed (update() removes no row); on any other
    column it calls abort(). *)
Theorem Compare_outcomes (h : gmap ptr ProfilingCollector.t)
    (m : ProfilingDataViewModel.t) (item1 item2 : ptr) (s1 s2 : Stats.t)
    (column : Z) (ascending : bool) :
  stats m !! item1 = Some s1 -> stats m !! item2 = Some s2 ->
  (1 <= column <= 4 -> exists z, Compare h m item1 item2 column ascending = Done z)
  /\ (column = 0 ->
      (is_Some (h !! item1) /\ is_Some (h !! item2) ->
       exists z, Compare h m item1 item2 column ascending = Done z)
      /\ (h !! item1 = None \/ h !! item2 = None ->
          Compare h m item1 item2 column ascending = Dangling))
  /\ (~ (0 <= column <= 4) -> Compare h m item1 item2 column ascending = Aborted).
Proof.
  intros H1 H2. split; [|split].
  - intros Hc. split_columns column; try lia; unfold row; rewrite H1, H2; simpl;
      eexists; reflexivity.
  - intros ->. unfold Compare, row, deref. simpl. rewrite H1, H2. simpl. split.
    + intros [[c1 ->] [c2 ->]]. simpl. eexists. reflexivity.
    + intros [-> | E]; [reflexivity|]. rewrite E.
      destruct (h !! item1); reflexivity.
  - intros Hc. split_columns column; try lia. reflexivity.
Qed.

Lemma Compare_outcomes_witness :
  stats (ProfilingDataViewModel.mk 5000
           (<[1%nat := Stats.mk 3 8 11 2]> (<[2%nat := Stats.mk 1 4 5 2]> ∅)))
    !! 1%nat = Some (Stats.mk 3 8 11 2)
  /\ stats (ProfilingDataViewModel.mk 5000
              (<[1%nat := Stats.mk 3 8 11 2]> (<[2%nat := Stats.mk 1 4 5 2]> ∅)))
       !! 2%nat = Some (Stats.mk 1 4 5 2)
  /\ Compare ∅ (ProfilingDataViewModel.mk 5000
                  (<[1%nat := Stats.mk 3 8 11 2]> (<[2%nat := Stats.mk 1 4 5 2]> ∅)))
             1%nat 2%nat 0 true = Dangling.
Proof.
  assert (H1 : stats (ProfilingDataViewModel.mk 5000
           (<[1%nat := Stats.mk 3 8 11 2]> (<[2%nat := Stats.mk 1 4 5 2]> ∅)))
    !! 1%nat = Some (Stats.mk 3 8 11 2)) by (vm_compute; reflexivity).
  assert (H2 : stats (ProfilingDataViewModel.mk 5000
              (<[1%nat := Stats.mk 3 8 11 2]> (<[2%nat := Stats.mk 1 4 5 2]> ∅)))
       !! 2%nat = Some (Stats.mk 1 4 5 2)) by (vm_compute; reflexivity).
  split; [exact H1|]. split; [exact H2|].
  refine (proj2 (proj1 (proj2 (Compare_outcomes ∅ _ 1%nat 2%nat _ _ 0 true H1 H2))
                   eq_refl) _).
  left. apply lookup_empty.
Defined.


(** ** Instances of the further properties *)

Lemma step_heap_wf (N : Z) (o : op) (w w' : world) :
  0 <= N -> Collectors.heap_wf N w -> step N o w = Ok w' ->
  Collectors.heap_wf N w'.
Proof.
  intros HN Hwf. destruct o as [this k|this]; simpl.
  - rewrite create_ok. simpl. intros [= <-]. intros p c. simpl.
    destruct (decide (this = p)) as [->|Hne].
    + rewrite lookup_insert_eq. intros [= <-]. split; simpl.
      * rewrite length_replicate. lia.
      * unfold is_u64. lia.
    + rewrite lookup_insert_ne by exact Hne. apply Hwf.
  - destruct (heap w !! this) as [c|]; [|discriminate].
    destruct (destroy c (reg w)) as [r|f]; simpl; [|discriminate].
    intros [= <-]. intros p c'. simpl.
    destruct (decide (this = p)) as [->|Hne].
    + rewrite lookup_delete_eq. discriminate.
    + rewrite lookup_delete_ne by exact Hne. apply Hwf.
Qed.

Lemma run_heap_wf (N : Z) (ops : list op) (w w' : world) :
  0 <= N -> Collectors.heap_wf N w -> run N ops w = Ok w' ->
  Collectors.heap_wf N w'.
Proof.
  intros HN. revert w. induction ops as [|o ops IH]; intros w Hwf; simpl.
  - intros [= <-]. exact Hwf.
  - destruct (step N o w) as [w1|f] eqn:Hs; simpl; [|discriminate].
    apply IH. eapply step_heap_wf; eassumption.
Qed.

Lemma boot_heap_wf (N : Z) : Collectors.heap_wf N boot.
Proof.
  intros p c H. unfold boot in H. simpl in H.
  rewrite lookup_empty in H. discriminate H.
Qed.

(** A process with two collectors of five slots, at addresses 10 and 20. *)
Lemma two_collectors_world :
  exists w,
    run 5 [New 10%nat "draw"; New 20%nat "paint"] boot = Ok w
    /\ world_ok w [10%nat; 20%nat] /\ Collectors.heap_wf 5 w.
Proof.
  destruct (run_ok 5 [New 10%nat "draw"; New 20%nat "paint"] boot [] boot_ok)
    as (w & Hrun & Hw); [vm_compute; reflexivity|].
  exists w. split; [exact Hrun|]. split; [exact Hw|].
  eapply run_heap_wf; [|apply boot_heap_wf|exact Hrun].
  lia.
Defined.

Lemma example_registry_ok :
  registry_ok (mkRegistry (Some [(0%nat, 10%nat); (1%nat, 20%nat)]) 2%nat).
Proof.
  unfold registry_ok, nodes. simpl. split; [discriminate|]. split.
  - apply NoDup_cons. split; [|apply NoDup_singleton].
    rewrite list_elem_of_singleton. lia.
  - intros it Hit. apply elem_of_cons in Hit as [->|Hit]; [lia|].
    apply list_elem_of_singleton in Hit as ->. lia.
Defined.

Ltac u64_side := unfold is_u64; simpl; lia.

Lemma advance_to_composes_witness :
  wf 5 example_collector /\ is_u64 8 /\ is_u64 10
  /\ head_time_bucket example_collector <= 8 <= 10
  /\ exists c1,
      advance_to 5 false 8 example_collector = Ok c1
      /\ advance_to 5 false 10 c1 = advance_to 5 false 10 example_collector.
Proof.
  assert (H1 : is_u64 8) by u64_side. assert (H2 : is_u64 10) by u64_side.
  assert (H3 : head_time_bucket example_collector <= 8 <= 10) by (simpl; lia).
  split; [exact example_collector_wf|]. repeat (split; [assumption|]).
  eexists. split; [vm_compute; reflexivity|].
  refine (proj1 (advance_to_composes 5 false example_collector 8 10 _
                   example_collector_wf H1 H2 H3 _)).
  vm_compute; reflexivity.
Defined.

Lemma dropped_sample_leaves_no_trace_witness :
  build_ok 5 1000 /\ wf 5 example_collector
  /\ is_u64 7500000 /\ is_u64 8000000 /\ is_u64 1000000
  /\ head_time_bucket example_collector <= time_bucket 1000 7500000
  /\ 7500000 <= 8000000
  /\ ~ (time_bucket 1000 7500000 - 5 + 1 <= time_bucket 1000 1000000
        <= time_bucket 1000 7500000)
  /\ exists c1,
      record_time 5 1000 32 false 7500000 1000000 20 example_collector = Ok c1.
Proof.
  assert (H1 : is_u64 7500000) by u64_side.
  assert (H2 : is_u64 8000000) by u64_side.
  assert (H3 : is_u64 1000000) by u64_side.
  assert (H4 : head_time_bucket example_collector <= time_bucket 1000 7500000)
    by (vm_compute; discriminate).
  assert (H5 : 7500000 <= 8000000) by lia.
  assert (H6 : ~ (time_bucket 1000 7500000 - 5 + 1 <= time_bucket 1000 1000000
                  <= time_bucket 1000 7500000)).
  { change (time_bucket 1000 7500000) with 7.
    change (time_bucket 1000 1000000) with 1. lia. }
  split; [exact build_5_1000|]. split; [exact example_collector_wf|].
  repeat (split; [assumption|]).
  destruct (dropped_sample_leaves_no_trace 5 1000 32 false example_collector
              7500000 1000000 20 8000000 build_5_1000 example_collector_wf
              H1 H2 H3 H4 H5 H6) as (c1 & Hc1 & _).
  exists c1. exact Hc1.
Defined.

Lemma record_time_keeps_collector_witness :
  exists c2,
    0 < 1000 /\ wf 5 example_collector /\ is_u64 9000000
    /\ record_time 5 1000 32 false 9000000 8000000 20 example_collector = Ok c2
    /\ wf 5 c2 /\ head_time_bucket c2 = time_bucket 1000 9000000.
Proof.
  eexists. split; [lia|]. split; [exact example_collector_wf|].
  split; [u64_side|].
  assert (H : forall c2,
             record_time 5 1000 32 false 9000000 8000000 20 example_collector = Ok c2 ->
             record_time 5 1000 32 false 9000000 8000000 20 example_collector = Ok c2
             /\ wf 5 c2 /\ head_time_bucket c2 = time_bucket 1000 9000000).
  { intros c2 Hc2. split; [exact Hc2|].
    destruct (record_time_keeps_collector 5 1000 32 false example_collector
                9000000 8000000 20 c2 ltac:(lia) example_collector_wf
                ltac:(u64_side) Hc2) as (Ha & Hb & _).
    split; assumption. }
  apply H. vm_compute. reflexivity.
Defined.


Lemma accumulate_stats_window_steps_witness :
  0 < 1000 /\ 0 <= 2500
  /\ accumulate_stats 5 1000 32 2500 example_collector
     = accumulate_stats 5 1000 32 (2500 - 2500 mod 1000) example_collector.
Proof.
  split; [lia|]. split; [lia|].
  exact (proj1 (accumulate_stats_window_steps 5 1000 32 example_collector 2500
                  ltac:(lia) ltac:(lia))).
Defined.

Lemma accumulate_stats_counts_window_witness :
  build_ok 5 1000 /\ wf 5 example_collector /\ 0 <= 5000
  /\ Forall (λ s, 0 <= Stats.num_samples s) (slots example_collector)
  /\ sum_samples (window_slots 5 1000 5000 (slots example_collector)) < 2 ^ 32
  /\ exists r,
      accumulate_stats 5 1000 32 5000 example_collector = Ok r
      /\ Stats.num_samples r
         = sum_samples (window_slots 5 1000 5000 (slots example_collector)).
Proof.
  assert (H1 : 0 <= 5000) by lia.
  assert (H2 : Forall (λ s, 0 <= Stats.num_samples s) (slots example_collector))
    by (repeat constructor; simpl; lia).
  assert (H3 : sum_samples (window_slots 5 1000 5000 (slots example_collector))
               < 2 ^ 32) by (vm_compute; reflexivity).
  split; [exact build_5_1000|]. split; [exact example_collector_wf|].
  repeat (split; [assumption|]).
  exact (accumulate_stats_counts_window 5 1000 32 example_collector 5000
           build_5_1000 example_collector_wf H1 H2 H3).
Defined.

Lemma reset_empties_range_witness :
  wf 5 example_collector /\ 0 <= 1
  /\ (1 <= 3 <= 5 -> exists c', reset 1 3 example_collector = Ok c')
  /\ (1 < 6 -> 5 < 6 -> reset 1 6 example_collector = Fault OutOfBounds).
Proof.
  split; [exact example_collector_wf|]. split; [lia|]. split.
  - intros H.
    destruct (proj1 (reset_empties_range 5 example_collector 1 3
                       example_collector_wf ltac:(lia)) H) as (c' & Hc' & _).
    exists c'. exact Hc'.
  - exact (proj2 (reset_empties_range 5 example_collector 1 6
                    example_collector_wf ltac:(lia))).
Defined.

Lemma reset_then_accumulate_is_empty_witness :
  build_ok 5 1000 /\ wf 5 example_collector /\ 0 <= 5000
  /\ exists c',
      reset 0 5 example_collector = Ok c'
      /\ head_time_bucket c' = head_time_bucket example_collector
      /\ accumulate_stats 5 1000 32 5000 c' = Ok Stats.new.
Proof.
  split; [exact build_5_1000|]. split; [exact example_collector_wf|].
  split; [lia|].
  exact (reset_then_accumulate_is_empty 5 1000 32 example_collector 5000
           build_5_1000 example_collector_wf ltac:(lia)).
Defined.

Lemma create_then_destroy_restores_list_witness :
  registry_ok (mkRegistry (Some [(0%nat, 10%nat); (1%nat, 20%nat)]) 2%nat)
  /\ exists c r1 r2,
      create 5 30%nat "probe"
        (mkRegistry (Some [(0%nat, 10%nat); (1%nat, 20%nat)]) 2%nat) = Ok (c, r1)
      /\ destroy c r1 = Ok r2
      /\ get_collectors r2 = [10%nat; 20%nat].
Proof.
  split; [exact example_registry_ok|].
  destruct (create_then_destroy_restores_list 5 30%nat "probe" _ example_registry_ok)
    as (c & r1 & r2 & H1 & _ & H2 & _ & H3).
  exists c, r1, r2. split; [exact H1|]. split; [exact H2|]. exact H3.
Defined.

Lemma list_pointer_null_iff_no_collector_witness :
  well_formed [New 10%nat "a"; New 20%nat "b"; Delete 10%nat; Delete 20%nat] [] = true
  /\ exists w,
      run 5 [New 10%nat "a"; New 20%nat "b"; Delete 10%nat; Delete 20%nat] boot = Ok w
      /\ (collectors (reg w) = None <-> get_collectors (reg w) = []).
Proof.
  split; [vm_compute; reflexivity|].
  destruct (list_pointer_null_iff_no_collector 5
              [New 10%nat "a"; New 20%nat "b"; Delete 10%nat; Delete 20%nat])
    as (w & H1 & H2 & _); [vm_compute; reflexivity|].
  exists w. split; assumption.
Defined.

Lemma reset_collectors_clears_every_collector_witness :
  exists w,
    world_ok w [10%nat; 20%nat] /\ Collectors.heap_wf 5 w
    /\ exists w', Collectors.reset_collectors 5 w = Done w' /\ reg w' = reg w.
Proof.
  destruct two_collectors_world as (w & _ & Hw & Hwf).
  exists w. split; [exact Hw|]. split; [exact Hwf|].
  destruct (proj1 (reset_collectors_clears_every_collector 5 w _ Hw Hwf))
    as (w' & H1 & H2 & _).
  exists w'. split; assumption.
Defined.

Lemma update_refreshes_rows_witness :
  exists w,
    build_ok 5 1000 /\ 0 <= duration_ms ProfilingDataViewModel.new
    /\ world_ok w [10%nat; 20%nat] /\ Collectors.heap_wf 5 w
    /\ exists m',
        update 5 1000 32 w ProfilingDataViewModel.new
        = Done (m', [ItemAdded 10%nat; ItemAdded 20%nat]).
Proof.
  destruct two_collectors_world as (w & _ & Hw & Hwf).
  exists w. split; [exact build_5_1000|].
  assert (Hd : 0 <= duration_ms ProfilingDataViewModel.new) by (simpl; lia).
  split; [exact Hd|]. split; [exact Hw|]. split; [exact Hwf|].
  destruct (update_refreshes_rows 5 1000 32 w _ ProfilingDataViewModel.new
              build_5_1000 Hd Hw Hwf) as (m' & H1 & _).
  exists m'. exact H1.
Defined.

Lemma update_twice_witness :
  exists w m1,
    build_ok 5 1000 /\ 0 <= duration_ms ProfilingDataViewModel.new
    /\ world_ok w [10%nat; 20%nat] /\ Collectors.heap_wf 5 w
    /\ update 5 1000 32 w ProfilingDataViewModel.new
       = Done (m1, [ItemAdded 10%nat; ItemAdded 20%nat])
    /\ update 5 1000 32 w m1 = Done (m1, [ItemChanged 10%nat; ItemChanged 20%nat]).
Proof.
  destruct two_collectors_world as (w & _ & Hw & Hwf).
  assert (Hd : 0 <= duration_ms ProfilingDataViewModel.new) by (simpl; lia).
  destruct (update_ok 5 1000 32 w _ ProfilingDataViewModel.new
              build_5_1000 Hd Hw Hwf) as (m1 & H1 & _).
  exists w, m1. split; [exact build_5_1000|].
  split; [exact Hd|]. split; [exact Hw|]. split; [exact Hwf|].
  split; [exact H1|].
  exact (update_twice 5 1000 32 w _ ProfilingDataViewModel.new m1 _
           build_5_1000 Hd Hw Hwf H1).
Defined.

(** ** Samples of one bucket, from record_time to accumulate_stats *)

Section BucketFacts.

Variables NUM_SLOTS SLOT_DURATION_MS bits : Z.
Variable NDEBUG : bool.

Local Abbreviation wf := (wf NUM_SLOTS).
Local Abbreviation time_bucket := (time_bucket SLOT_DURATION_MS).
Local Abbreviation advance_to := (advance_to NUM_SLOTS NDEBUG).
Local Abbreviation record_time := (record_time NUM_SLOTS SLOT_DURATION_MS bits NDEBUG).
Local Abbreviation record_samples :=
  (record_samples NUM_SLOTS SLOT_DURATION_MS bits NDEBUG).
Local Abbreviation accumulate_stats := (accumulate_stats NUM_SLOTS SLOT_DURATION_MS bits).

Implicit Types (c : ProfilingCollector.t) (sl : list Stats.t).

Hypothesis Hbuild : build_ok NUM_SLOTS SLOT_DURATION_MS.
Hypothesis Hbits : 0 < bits.

Lemma record_time_in_range d s :
  is_u64 d -> Stats.in_range bits s ->
  Stats.in_range bits (Stats.record_time bits d s).
Proof.
  destruct s as [mn mx tot n]. unfold Stats.in_range, is_u64. simpl.
  intros Hd (? & ? & ? & ?). unfold Stats.record_time. simpl.
  assert (Hw : forall x, 0 <= wrap bits x < 2 ^ bits).
  { intros x. unfold wrap. apply Z.mod_pos_bound. apply Z.pow_pos_nonneg; lia. }
  destruct (Z.eqb_spec n 0); simpl.
  - repeat split; try lia; apply Hw.
  - pose proof (u64_range (tot + d)) as Hu. unfold is_u64 in Hu.
    destruct (Z.ltb_spec d mn), (Z.ltb_spec mx d); simpl;
      repeat split; try lia; apply Hw.
Qed.

Lemma stats_of_in_range ds :
  Forall is_u64 ds -> Stats.in_range bits (stats_of bits ds).
Proof.
  unfold stats_of.
  assert (Hgen : forall s, Stats.in_range bits s -> Forall is_u64 ds ->
                           Stats.in_range bits
                             (foldl (λ s d, Stats.record_time bits d s) s ds)).
  { induction ds as [|d ds IH]; intros s Hs Hds; [exact Hs|].
    simpl. apply Forall_cons in Hds as [Hd Hds].
    apply IH; [|exact Hds]. apply record_time_in_range; assumption. }
  apply Hgen. unfold Stats.in_range, is_u64. simpl.
  repeat split; lia.
Qed.

(** A call of record_time for a sample of the bucket the ring is at. *)
Lemma record_in_bucket c now begin_time d s0 :
  wf c -> is_u64 now -> is_u64 begin_time ->
  time_bucket now = head_time_bucket c ->
  time_bucket begin_time = head_time_bucket c ->
  slots c !! 0%nat = Some s0 ->
  record_time now begin_time d c
  = Ok (ProfilingCollector.mk (key c) (head_time_bucket c)
           (<[0%nat := Stats.record_time bits d s0]> (slots c)) (this_iter c)).
Proof.
  intros [Hlen Hh] Hnow Hbegin Hn Hb H0.
  pose proof Hbuild as ((HN0 & HN1) & HD & _).
  destruct (bucket_plus_slots_small _ _ begin_time Hbuild Hbegin) as [Hb0 Hbs].
  unfold ProfilingCollector.record_time. rewrite Hn.
  unfold ProfilingCollector.advance_to at 1. rewrite Z.eqb_refl. simpl.
  rewrite Hb.
  rewrite (proj2 (retained_spec NUM_SLOTS (head_time_bucket c) (head_time_bucket c)
                    ltac:(lia) ltac:(lia) ltac:(lia))) by lia.
  rewrite Z.sub_diag. change (u64 0) with 0.
  unfold slot_update, slot_read.
  change (Z.to_nat 0) with 0%nat. change (0 <=? 0) with true. cbv iota.
  rewrite H0. reflexivity.
Qed.

Lemma record_samples_in_bucket samples c s0 :
  wf c ->
  Forall (λ s, is_u64 s.1.1 /\ is_u64 s.1.2
               /\ time_bucket s.1.1 = head_time_bucket c
               /\ time_bucket s.1.2 = head_time_bucket c) samples ->
  slots c !! 0%nat = Some s0 ->
  record_samples samples c
  = Ok (ProfilingCollector.mk (key c) (head_time_bucket c)
           (<[0%nat := foldl (λ s d, Stats.record_time bits d s) s0 samples.*2]>
              (slots c))
           (this_iter c)).
Proof.
  intros Hc Hs. revert c s0 Hc Hs.
  induction samples as [|s samples IH]; intros c s0 Hc Hs H0.
  - simpl. rewrite list_insert_id by exact H0. destruct c; reflexivity.
  - apply Forall_cons in Hs as [(Hn & Hb & Htn & Htb) Hs].
    simpl. rewrite (record_in_bucket c s.1.1 s.1.2 s.2 s0 Hc Hn Hb Htn Htb H0).
    simpl. destruct Hc as [Hlen Hh].
    rewrite (IH _ (Stats.record_time bits s.2 s0)); simpl.
    + rewrite list_insert_insert_eq. reflexivity.
    + split; simpl; [rewrite length_insert; exact Hlen|exact Hh].
    + exact Hs.
    + apply list_lookup_insert_eq.
      destruct Hbuild as ((? & _) & _). lia.
Qed.

(** Moving on a ring whose slots are all empty changes the head only. *)
Lemma advance_to_all_empty c b :
  wf c -> Forall (λ s, s = Stats.new) (slots c) ->
  is_u64 b -> head_time_bucket c <= b ->
  advance_to b c = Ok (ProfilingCollector.mk (key c) b (slots c) (this_iter c)).
Proof.
  intros Hc Hempty Hb Hle.
  destruct (Z.eq_dec (head_time_bucket c) b) as [<-|Hne].
  { unfold ProfilingCollector.advance_to. rewrite Z.eqb_refl. destruct c; reflexivity. }
  destruct (advance_to_later NUM_SLOTS NDEBUG b c Hc) as (sl' & -> & Hl & Hj).
  { unfold is_u64 in Hb. lia. }
  do 2 f_equal. apply list_eq. intros j.
  destruct (decide (j < length (slots c))%nat) as [Hlt|Hge].
  - rewrite Hj by exact Hlt.
    destruct (lookup_lt_is_Some_2 (slots c) j Hlt) as [s Hs].
    rewrite Hs, (Forall_lookup_1 _ _ _ _ Hempty Hs).
    case_decide; [reflexivity|].
    destruct (lookup_lt_is_Some_2 (slots c) (j - Z.to_nat (b - head_time_bucket c))
                ltac:(lia)) as [s' Hs'].
    rewrite Hs', (Forall_lookup_1 _ _ _ _ Hempty Hs'). reflexivity.
  - rewrite !lookup_ge_None_2 by lia. reflexivity.
Qed.

(** Merging a list that holds one Stats with samples among empty ones. *)
Lemma foldl_add_one sl (i : nat) (x : Stats.t) :
  sl !! i = Some x ->
  (forall (j : nat) s, j <> i -> sl !! j = Some s -> s = Stats.new) ->
  Stats.in_range bits x -> 0 < Stats.num_samples x ->
  foldl (Stats.add bits) Stats.new sl = x.
Proof.
  intros Hi Hrest Hx Hn.
  rewrite <- (take_drop_middle sl i x Hi), foldl_app. simpl.
  rewrite (foldl_add_empty bits Stats.new (take i sl)).
  - rewrite (add_new_l bits x Hx Hn). apply foldl_add_empty.
    apply Forall_lookup_2. intros j s Hs. rewrite lookup_drop in Hs.
    eapply (Hrest (S i + j)%nat); [lia|exact Hs].
  - apply Forall_lookup_2. intros j s Hs.
    pose proof (lookup_lt_Some _ _ _ Hs) as Hlt. rewrite length_take in Hlt.
    rewrite lookup_take_lt in Hs by lia.
    eapply (Hrest j); [lia|exact Hs].
Qed.

(** X20.  The samples recorded during one bucket are reported exactly.
    Into a collector whose slots are empty, samples are recorded while the
    clock is in bucket b, each begun in bucket b; the clock then moves on
    by k buckets, 1 <= k <= NUM_SLOTS - 1, and one more sample, begun in
    the new bucket, is recorded.  Every accumulate_stats whose window
    reaches k slots back then returns the Stats of the samples of bucket
    b alone: their minimum, their maximum, their total and their number
    (which is taken not to wrap to 0). *)
Theorem samples_of_a_bucket_are_reported c (samples : list (Z * Z * Z))
    (b now' begin' d' k w : Z) :
  wf c -> Forall (λ s, s = Stats.new) (slots c) -> head_time_bucket c <= b ->
  Forall (λ s, is_u64 s.1.1 /\ is_u64 s.1.2 /\ is_u64 s.2
               /\ time_bucket s.1.1 = b /\ time_bucket s.1.2 = b) samples ->
  0 < Stats.num_samples (stats_of bits samples.*2) ->
  is_u64 now' -> is_u64 begin' ->
  time_bucket now' = b + k -> time_bucket begin' = b + k ->
  1 <= k <= NUM_SLOTS - 1 -> 0 <= w -> k <= w / SLOT_DURATION_MS ->
  exists c1 c2,
    record_samples samples c = Ok c1
    /\ record_time now' begin' d' c1 = Ok c2
    /\ accumulate_stats w c2 = Ok (stats_of bits samples.*2).
Proof.
  intros Hc Hempty Hhead Hs Hcount Hn' Hb' Htn' Htb' Hk Hw Hreach.
  pose proof Hbuild as ((HN0 & HN1) & HD & _).
  pose proof Hc as [Hlen Hh].
  destruct samples as [|s0 rest]; [simpl in Hcount; lia|].
  pose proof (Forall_inv Hs) as (Hn0 & Hb0 & _ & Htn0 & Htb0).
  assert (Hbu : is_u64 b) by (rewrite <- Htn0; apply time_bucket_u64; assumption).
  set (c0 := ProfilingCollector.mk (key c) b (slots c) (this_iter c)).
  assert (Hc0 : wf c0) by (split; simpl; assumption).
  assert (Hadv : advance_to b c = Ok c0)
    by (apply advance_to_all_empty; assumption).
  assert (Hnew0 : slots c !! 0%nat = Some Stats.new).
  { destruct (lookup_lt_is_Some_2 (slots c) 0 ltac:(lia)) as [s Hs0].
    rewrite Hs0, (Forall_lookup_1 _ _ _ _ Hempty Hs0). reflexivity. }
  assert (Hfirst : record_time s0.1.1 s0.1.2 s0.2 c
                   = record_time s0.1.1 s0.1.2 s0.2 c0).
  { unfold ProfilingCollector.record_time. rewrite Htn0, Hadv.
    replace (advance_to b c0) with (Ok c0); [reflexivity|].
    unfold ProfilingCollector.advance_to. simpl. rewrite Z.eqb_refl. reflexivity. }
  set (x := stats_of bits (s0 :: rest).*2) in *.
  set (c1 := ProfilingCollector.mk (key c) b (<[0%nat := x]> (slots c)) (this_iter c)).
  assert (H1 : record_samples (s0 :: rest) c = Ok c1).
  { change (record_samples (s0 :: rest) c)
      with (c' <- record_time s0.1.1 s0.1.2 s0.2 c ;; record_samples rest c').
    rewrite Hfirst.
    change (c' <- record_time s0.1.1 s0.1.2 s0.2 c0 ;; record_samples rest c')
      with (record_samples (s0 :: rest) c0).
    rewrite (record_samples_in_bucket (s0 :: rest) c0 Stats.new Hc0);
      [reflexivity| |exact Hnew0].
    eapply Forall_impl; [exact Hs|]. simpl. intros s (? & ? & _ & ? & ?). auto. }
  assert (Hc1 : wf c1) by (split; simpl; [rewrite length_insert|]; assumption).
  destruct (advance_to_later NUM_SLOTS NDEBUG (b + k) c1 Hc1) as (sl' & HA & Hl & Hj).
  { simpl. unfold is_u64 in Hbu.
    destruct (time_bucket_u64 _ _ HD Hn') as [_ Hup]. rewrite Htn' in Hup. lia. }
  simpl in HA, Hl, Hj. rewrite length_insert in Hl, Hj.
  set (cA := ProfilingCollector.mk (key c) (b + k) sl' (this_iter c)) in *.
  assert (HcA : wf cA).
  { split; simpl; [lia|]. rewrite <- Htn'. apply time_bucket_u64; assumption. }
  rewrite <- Htn' in HA.
  destruct (record_time_after_advance NUM_SLOTS SLOT_DURATION_MS bits NDEBUG
              now' begin' d' c1 cA HD Hb' HA HcA) as (c2 & H2 & Hc2 & _ & _ & Hyes).
  simpl in Hyes. rewrite Htb', Z.sub_diag in Hyes.
  destruct Hyes as (s & _ & Hsl).
  { apply retained_spec; unfold is_u64 in *; try lia.
    destruct (bucket_plus_slots_small _ _ begin' Hbuild Hb') as [_ Hsm].
    rewrite Htb' in Hsm. exact Hsm. }
  exists c1, c2. split; [exact H1|]. split; [exact H2|].
  rewrite (accumulate_stats_ok NUM_SLOTS SLOT_DURATION_MS bits) by assumption.
  f_equal. unfold merge_range. rewrite Hsl.
  change (Z.to_nat 0) with 0%nat. replace (Z.to_nat 1) with 1%nat by lia.
  rewrite drop_insert_lt by lia.
  apply (foldl_add_one _ (Z.to_nat (k - 1))).
  - rewrite lookup_take_lt by lia. rewrite lookup_drop, Hj by lia.
    case_decide; [lia|].
    replace (1 + Z.to_nat (k - 1) - Z.to_nat (b + k - b))%nat with 0%nat by lia.
    apply list_lookup_insert_eq. lia.
  - intros j s' Hne Hs'.
    pose proof (lookup_lt_Some _ _ _ Hs') as Hlt.
    rewrite length_take, length_drop in Hlt.
    rewrite lookup_take_lt in Hs' by lia. rewrite lookup_drop, Hj in Hs' by lia.
    case_decide; [congruence|].
    rewrite list_lookup_insert_ne in Hs' by lia.
    exact (Forall_lookup_1 _ _ _ _ Hempty Hs').
  - apply stats_of_in_range.
    apply Forall_fmap. eapply Forall_impl; [exact Hs|].
    simpl. intros s' (_ & _ & ? & _). assumption.
  - exact Hcount.
Qed.

End BucketFacts.

Lemma samples_of_a_bucket_are_reported_witness :
  exists c1 c2,
    record_samples 5 1000 32 false
      [(3100000, 3000000, 40); (3500000, 3200000, 10); (3900000, 3900000, 25)]
      (ProfilingCollector.mk "probe" 0 (replicate 5 Stats.new) 0%nat) = Ok c1
    /\ record_time 5 1000 32 false 5200000 5100000 7 c1 = Ok c2
    /\ accumulate_stats 5 1000 32 5000 c2
       = Ok (stats_of 32
               [(3100000, 3000000, 40); (3500000, 3200000, 10);
                (3900000, 3900000, 25)].*2).
Proof.
  assert (H1 : wf 5 (ProfilingCollector.mk "probe" 0 (replicate 5 Stats.new) 0%nat)).
  { split; [reflexivity|]. unfold is_u64. cbn [head_time_bucket]. lia. }
  assert (H2 : Forall (λ s, s = Stats.new)
                 (slots (ProfilingCollector.mk "probe" 0 (replicate 5 Stats.new) 0%nat))).
  { cbn [slots]. apply Forall_replicate. reflexivity. }
  assert (H3 : head_time_bucket
                 (ProfilingCollector.mk "probe" 0 (replicate 5 Stats.new) 0%nat) <= 3).
  { cbn [head_time_bucket]. lia. }
  assert (Hu : forall x, 0 <= x < 2 ^ 64 -> is_u64 x) by (intros x H; exact H).
  assert (H4 : Forall (λ s : Z * Z * Z,
                         is_u64 s.1.1 /\ is_u64 s.1.2 /\ is_u64 s.2
                         /\ time_bucket 1000 s.1.1 = 3 /\ time_bucket 1000 s.1.2 = 3)
                 [(3100000, 3000000, 40); (3500000, 3200000, 10);
                  (3900000, 3900000, 25)]).
  { repeat (apply Forall_cons; split); try apply Forall_nil;
      cbn [fst snd]; repeat split; try (apply Hu; lia); vm_compute; reflexivity. }
  assert (H5 : 0 < Stats.num_samples
                     (stats_of 32 [(3100000, 3000000, 40); (3500000, 3200000, 10);
                                   (3900000, 3900000, 25)].*2))
    by (vm_compute; reflexivity).
  assert (H6 : is_u64 5200000) by (apply Hu; lia).
  assert (H7 : is_u64 5100000) by (apply Hu; lia).
  assert (H8 : time_bucket 1000 5200000 = 3 + 2) by (vm_compute; reflexivity).
  assert (H9 : time_bucket 1000 5100000 = 3 + 2) by (vm_compute; reflexivity).
  assert (H10 : 1 <= 2 <= 5 - 1) by lia.
  assert (H11 : 0 <= 5000) by lia.
  assert (H12 : 2 <= 5000 / 1000) by (vm_compute; discriminate).
  exact (samples_of_a_bucket_are_reported 5 1000 32 false build_5_1000 ltac:(lia)
           _ _ 3 5200000 5100000 7 2 5000
           H1 H2 H3 H4 H5 H6 H7 H8 H9 H10 H11 H12).
Defined.
